(** * ZK-NFS: the namespace tree, the file-system store and the commit protocol

    A shallow embedding of [nfs/fs/FileNode.py], [nfs/fs/DirectoryNode.py],
    [nfs/fs/FileSystem.py] and of the close/write paths of [nfs/server.py]
    and [nfs/client.py], followed by the properties of the specification
    that were checked against it.

    Conventions of the embedding:
    - a Python [dict] whose iteration order is observable (the children of a
      directory) is an association list in insertion order;
    - the blob directory on disk is a finite map from blob name to bytes;
    - mutation of shared objects is explicit state passing: a directory that
      the Python code holds by reference is a cursor (the list of child
      keys leading to it from the root) into the tree of the world;
    - an exception is a [Raise] result; the world reached when the
      exception was raised is kept, as in Python;
    - [time.time()] reads a clock oracle and advances a call counter. *)

From Stdlib Require Import ZArith List Ascii String Bool Lia.
From stdpp Require Import base option gmap strings list fin_maps.

Open Scope string_scope.
Open Scope Z_scope.

(** ** Python exceptions raised by the modelled code *)

Inductive exn : Type :=
| ValueError
| FileNotFoundError
| FileExistsError
| EnvironmentError
| KeyError
| IndexError
| AttributeError
| TypeError
| AssertionError.

#[global] Instance exn_eq_dec : EqDecision exn.
Proof. solve_decision. Defined.

Inductive result (A : Type) : Type :=
| Ok (a : A)
| Raise (e : exn).
Arguments Ok {A} a.
Arguments Raise {A} e.

Definition bytes := list Byte.byte.

(** [str.encode()]: the strings of the model are already byte strings. *)
Definition encode (s : string) : bytes := list_byte_of_string s.

(** ** SHA-256 ([hashlib.sha256(...).hexdigest()])

    32-bit words are [Z] with the wrap-around written out. *)
Module SHA256.

Definition mask32 (x : Z) : Z := x mod 4294967296.
Definition add32 (x y : Z) : Z := mask32 (x + y).
Definition rotr (n x : Z) : Z :=
  Z.lor (Z.shiftr x n) (mask32 (Z.shiftl x (32 - n))).
Definition shr (n x : Z) : Z := Z.shiftr x n.
Definition not32 (x : Z) : Z := 4294967295 - x.

Definition Ch (x y z : Z) : Z := Z.lxor (Z.land x y) (Z.land (not32 x) z).
Definition Maj (x y z : Z) : Z :=
  Z.lxor (Z.lxor (Z.land x y) (Z.land x z)) (Z.land y z).
Definition bsig0 (x : Z) : Z := Z.lxor (Z.lxor (rotr 2 x) (rotr 13 x)) (rotr 22 x).
Definition bsig1 (x : Z) : Z := Z.lxor (Z.lxor (rotr 6 x) (rotr 11 x)) (rotr 25 x).
Definition ssig0 (x : Z) : Z := Z.lxor (Z.lxor (rotr 7 x) (rotr 18 x)) (shr 3 x).
Definition ssig1 (x : Z) : Z := Z.lxor (Z.lxor (rotr 17 x) (rotr 19 x)) (shr 10 x).

(** The round constants are the first 32 bits of the fractional parts of
    the cube roots of the first 64 primes, the initial hash value those of
    the square roots of the first 8; both are computed here. *)
Definition is_prime (n : nat) : bool :=
  forallb (fun d => negb (Nat.eqb (Nat.modulo n d) 0)) (seq 2 (n - 2)).

Definition primes (count : nat) : list Z :=
  map Z.of_nat (firstn count (List.filter is_prime (seq 2 310))).

(** The integer cube root, one bit at a time from bit [bits - 1] down. *)
Fixpoint cube_root_bits (bits : nat) (n r : Z) : Z :=
  match bits with
  | O => r
  | S b =>
      let r' := r + Z.shiftl 1 (Z.of_nat b) in
      cube_root_bits b n (if r' * r' * r' <=? n then r' else r)
  end.

Definition frac_cube_root (p : Z) : Z :=
  mask32 (cube_root_bits 36 (Z.shiftl p 96) 0).
Definition frac_square_root (p : Z) : Z :=
  mask32 (Z.sqrt (Z.shiftl p 64)).

Definition K : list Z := Eval vm_compute in map frac_cube_root (primes 64).
Definition H0 : list Z := Eval vm_compute in map frac_square_root (primes 8).

(** Big-endian encoding of [x] on [n] bytes. *)
Fixpoint be_bytes (n : nat) (x : Z) : list Z :=
  match n with
  | O => []
  | S n' => (Z.shiftr x (8 * Z.of_nat n')) mod 256 :: be_bytes n' x
  end.

(** Message padding: a [0x80] byte, zeros up to 56 modulo 64, and the bit
    length on eight bytes. *)
Definition pad (msg : list Z) : list Z :=
  let len := Z.of_nat (length msg) in
  let zeros := Z.to_nat ((55 - len) mod 64) in
  msg ++ [128] ++ repeat 0 zeros ++ be_bytes 8 (8 * len).

Fixpoint be_words (fuel : nat) (bs : list Z) : list Z :=
  match fuel, bs with
  | S fuel', b0 :: b1 :: b2 :: b3 :: rest =>
      (b0 * 16777216 + b1 * 65536 + b2 * 256 + b3) :: be_words fuel' rest
  | _, _ => []
  end.

(** The message schedule, most recent word first. *)
Fixpoint schedule (n : nat) (w : list Z) : list Z :=
  match n with
  | O => w
  | S n' =>
      let x := add32 (add32 (add32 (ssig1 (nth 1 w 0)) (nth 6 w 0))
                            (ssig0 (nth 14 w 0))) (nth 15 w 0) in
      schedule n' (x :: w)
  end.

Definition round (st : list Z) (kw : Z * Z) : list Z :=
  match st with
  | [a; b; c; d; e; f; g; h] =>
      let t1 := add32 (add32 (add32 (add32 h (bsig1 e)) (Ch e f g)) (fst kw)) (snd kw) in
      let t2 := add32 (bsig0 a) (Maj a b c) in
      [add32 t1 t2; a; b; c; add32 d t1; e; f; g]
  | _ => st
  end.

Definition compress (h : list Z) (block : list Z) : list Z :=
  let w := rev (schedule 48 (rev (be_words 16 block))) in
  let st := fold_left round (combine K w) h in
  map (fun p => add32 (fst p) (snd p)) (combine h st).

Fixpoint blocks (fuel : nat) (h : list Z) (bs : list Z) : list Z :=
  match fuel with
  | O => h
  | S fuel' =>
      match bs with
      | [] => h
      | _ => blocks fuel' (compress h (firstn 64 bs)) (skipn 64 bs)
      end
  end.

Definition digest (msg : bytes) : list Z :=
  let padded := pad (map (fun b => Z.of_N (Byte.to_N b)) msg) in
  blocks (length padded) H0 padded.

Definition hex_digit (x : Z) : ascii :=
  nth (Z.to_nat x)
      ["0"; "1"; "2"; "3"; "4"; "5"; "6"; "7"; "8"; "9"; "a"; "b"; "c"; "d"; "e"; "f"]%char
      "0"%char.

Fixpoint hex_word (n : nat) (x : Z) : string :=
  match n with
  | O => EmptyString
  | S n' => String (hex_digit ((Z.shiftr x (4 * Z.of_nat n')) mod 16)) (hex_word n' x)
  end.

Definition hexdigest (msg : bytes) : string :=
  fold_right (fun w acc => hex_word 8 w ++ acc) EmptyString (digest msg).

End SHA256.


(** ** [pathlib.PurePosixPath]

    A path is its root ([""], ["/"] or ["//"]) and its components; the
    constructor normalises as pathlib does: repeated slashes and ["."]
    components are dropped, [".."] is kept. *)
Module Path.

Record t : Type := mk { root : string; tail : list string }.

Definition slash : ascii := "/"%char.

(** [s.split('/')] *)
Fixpoint split (s : string) : list string :=
  match s with
  | EmptyString => [EmptyString]
  | String c s' =>
      if Ascii.eqb c slash then EmptyString :: split s'
      else match split s' with
           | x :: xs => String c x :: xs
           | [] => [String c EmptyString]
           end
  end.

(** [posixpath.splitroot]: one leading slash or three and more give the
    root ["/"], exactly two give ["//"]. *)
Definition splitroot (s : string) : string * string :=
  match s with
  | String c1 r1 =>
      if Ascii.eqb c1 slash then
        match r1 with
        | String c2 r2 =>
            if Ascii.eqb c2 slash then
              match r2 with
              | String c3 _ => if Ascii.eqb c3 slash then ("/", r1) else ("//", r2)
              | EmptyString => ("//", r2)
              end
            else ("/", r1)
        | EmptyString => ("/", r1)
        end
      else ("", s)
  | EmptyString => ("", s)
  end.

Definition keep_component (x : string) : bool :=
  negb (String.eqb x "") && negb (String.eqb x ".").

(** [Path(s)] for a string [s]. *)
Definition of_str (s : string) : t :=
  let '(r, rel) := splitroot s in
  mk r (List.filter keep_component (split rel)).

Fixpoint join_slash (l : list string) : string :=
  match l with
  | [] => ""
  | [x] => x
  | x :: rest => x ++ "/" ++ join_slash rest
  end.

(** [str(p)], which is also [p.as_posix()] on POSIX. *)
Definition str (p : t) : string :=
  if String.eqb (root p) "" then
    match tail p with
    | [] => "."
    | _ => join_slash (tail p)
    end
  else root p ++ join_slash (tail p).

Definition as_posix (p : t) : string := str p.

(** [p.parts] *)
Definition parts (p : t) : list string :=
  if String.eqb (root p) "" then tail p else root p :: tail p.

Definition is_absolute (p : t) : bool := negb (String.eqb (root p) "").

(** [p.parent]: a path without components is its own parent. *)
Definition parent (p : t) : t :=
  match tail p with
  | [] => p
  | _ => mk (root p) (removelast (tail p))
  end.

(** [p.name] *)
Definition name (p : t) : string := List.last (tail p) "".

Definition starts_with_slash (s : string) : bool :=
  match s with
  | String c _ => Ascii.eqb c slash
  | EmptyString => false
  end.

Fixpoint ends_with_slash (s : string) : bool :=
  match s with
  | EmptyString => false
  | String c EmptyString => Ascii.eqb c slash
  | String _ s' => ends_with_slash s'
  end.

(** [posixpath.join(a, *p)] *)
Definition posix_join (a : string) (ps : list string) : string :=
  fold_left
    (fun path b =>
       if starts_with_slash b then b
       else if String.eqb path "" || ends_with_slash path then path ++ b
       else path ++ "/" ++ b)
    ps a.

(** [Path] applied to several segments, which pathlib joins with
    [posixpath.join] before parsing. *)
Definition of_segments (segs : list string) : t :=
  match segs with
  | [] => of_str ""
  | a :: ps => of_str (posix_join a ps)
  end.

(** [Path.joinpath(p, s)] *)
Definition joinpath (p : t) (s : string) : t := of_segments [str p; s].

End Path.

(** ** [FileNode] *)
Module FileNode.

Record t : Type := mk {
  name : string;
  file_path : Path.t;
  file_id : string;
  size : Z;
  created_at : Z;
  modified_at : Z
}.

(** [hashlib.sha256(f"{name}{file_path}".encode()).hexdigest()] *)
Definition hash_id (name : string) (file_path : Path.t) : string :=
  SHA256.hexdigest (encode (name ++ Path.str file_path)).

Arguments hash_id : simpl never.

Definition generate_file_id (self : t) : string :=
  hash_id (name self) (file_path self).

(** [FileNode(name, file_path)]; [t1] and [t2] are the two readings of
    [time.time()]. *)
Definition init (name : string) (file_path : Path.t) (t1 t2 : Z) : t :=
  mk name file_path (hash_id name file_path) 0 t1 t2.

(** [rename]: the id is regenerated after the name is assigned and before
    the path is. *)
Definition rename (self : t) (new_name : string) (now : Z) : t :=
  let s1 := mk new_name (file_path self) (file_id self)
               (size self) (created_at self) (modified_at self) in
  let s2 := mk (name s1) (file_path s1) (generate_file_id s1)
               (size s1) (created_at s1) (modified_at s1) in
  let s3 := mk (name s2) (Path.joinpath (Path.parent (file_path s2)) new_name)
               (file_id s2) (size s2) (created_at s2) (modified_at s2) in
  mk (name s3) (file_path s3) (file_id s3) (size s3) (created_at s3) now.

(** [move]: the path is assigned first, then the id is regenerated. *)
Definition move (self : t) (path : Path.t) (now : Z) : t :=
  let s1 := mk (name self) path (file_id self)
               (size self) (created_at self) (modified_at self) in
  let s2 := mk (name s1) (file_path s1) (generate_file_id s1)
               (size s1) (created_at s1) (modified_at s1) in
  let s3 := mk (name s2)
               (Path.joinpath (Path.parent (file_path s2)) (Path.name (file_path s2)))
               (file_id s2) (size s2) (created_at s2) (modified_at s2) in
  mk (name s3) (file_path s3) (file_id s3) (size s3) (created_at s3) now.

End FileNode.

(** ** Python [dict] with string keys, in insertion order *)
Module Dict.
Section Ops.
Context {V : Type}.

(** [d.get(k)] *)
Fixpoint get (k : string) (d : list (string * V)) : option V :=
  match d with
  | [] => None
  | (k', v) :: r => if String.eqb k' k then Some v else get k r
  end.

(** [k in d] *)
Definition mem (k : string) (d : list (string * V)) : bool :=
  match get k d with Some _ => true | None => false end.

(** [d[k] = v]: an existing key keeps its position, a new key goes last. *)
Fixpoint set (k : string) (v : V) (d : list (string * V)) : list (string * V) :=
  match d with
  | [] => [(k, v)]
  | (k', v') :: r =>
      if String.eqb k' k then (k', v) :: r else (k', v') :: set k v r
  end.

(** [del d[k]] for a key that is present. *)
Fixpoint del (k : string) (d : list (string * V)) : list (string * V) :=
  match d with
  | [] => []
  | (k', v') :: r => if String.eqb k' k then r else (k', v') :: del k r
  end.

(** [d.values()] *)
Definition values (d : list (string * V)) : list V := map snd d.

End Ops.
End Dict.

(** ** The namespace tree *)

Unset Elimination Schemes.
Inductive Node : Type :=
| FileN (f : FileNode.t)
| DirN (name : string) (children : list (string * Node)).
Set Elimination Schemes.

(** The name attribute, which both node classes have. *)
Definition node_name (n : Node) : string :=
  match n with
  | FileN f => FileNode.name f
  | DirN nm _ => nm
  end.

(** [isinstance(n, DirectoryNode)] and [isinstance(n, FileNode)] *)
Definition is_dir (n : Node) : bool :=
  match n with DirN _ _ => true | FileN _ => false end.
Definition is_file (n : Node) : bool :=
  match n with FileN _ => true | DirN _ _ => false end.

(** The ids of the files below a node, children in iteration order. *)
Fixpoint node_file_ids (n : Node) : list string :=
  match n with
  | FileN f => [FileNode.file_id f]
  | DirN _ ch => flat_map (fun kv => node_file_ids (snd kv)) ch
  end.

(** ** The clock behind [time.time()] *)
Record Clock : Type := mkClock { calls : nat; oracle : nat -> Z }.

Definition time_time (c : Clock) : Z * Clock :=
  (oracle c (calls c), mkClock (S (calls c)) (oracle c)).

(** ** Stateful, fallible computations

    A computation over a state [S] returns the state it reached together
    with a value or the exception raised. *)
Definition M (S A : Type) : Type := S -> S * result A.

Definition ret {S A} (a : A) : M S A := fun s => (s, Ok a).
Definition raise {S A} (e : exn) : M S A := fun s => (s, Raise e).
Definition bind {S A B} (m : M S A) (k : A -> M S B) : M S B :=
  fun s => match m s with
           | (s', Ok a) => k a s'
           | (s', Raise e) => (s', Raise e)
           end.
Definition get_state {S} : M S S := fun s => (s, Ok s).
Definition put_state {S} (s' : S) : M S unit := fun _ => (s', Ok tt).

(** [try: m except e: handler] *)
Definition try_except {S A} (m : M S A) (e : exn) (handler : M S A) : M S A :=
  fun s => match m s with
           | (s', Ok a) => (s', Ok a)
           | (s', Raise e') => if decide (e' = e) then handler s' else (s', Raise e')
           end.

Declare Scope py_scope.
Delimit Scope py_scope with py.
Notation "'let!' x ':=' c1 'in' c2" := (bind c1 (fun x => c2))
  (at level 10, x name, c1 at level 100, c2 at level 200) : py_scope.
Notation "'do!' c1 'in' c2" := (bind c1 (fun _ => c2))
  (at level 10, c1 at level 100, c2 at level 200) : py_scope.
Open Scope py_scope.

(** [for x in l: acc = body(acc, x)] *)
Fixpoint for_each {S A B} (l : list A) (acc : B) (body : B -> A -> M S B) : M S B :=
  match l with
  | [] => ret acc
  | x :: r => let! acc' := body acc x in for_each r acc' body
  end.

(** Python slices [l[1:]], [l[:-1]], [l[1:-1]] and the index [l[-1]]. *)
Definition slice_1 {A} (l : list A) : list A := List.tl l.
Definition slice_to_last {A} (l : list A) : list A := removelast l.
Definition slice_1_to_last {A} (l : list A) : list A := removelast (List.tl l).
Definition index_last {A} (l : list A) : option A :=
  match l with
  | [] => None
  | x :: r => Some (List.last r x)
  end.

(** ** [DirectoryNode]

    A method runs on the directory it is called on and on the clock; it
    returns both as it left them. *)
Module DirectoryNode.

Record t : Type := mk { name : string; children : list (string * Node) }.

Definition to_node (d : t) : Node := DirN (name d) (children d).
Definition of_node (n : Node) : option t :=
  match n with
  | DirN nm ch => Some (mk nm ch)
  | FileN _ => None
  end.

Definition St : Type := (t * Clock)%type.

Definition now : M St Z :=
  fun s => let '(tm, c) := time_time (snd s) in ((fst s, c), Ok tm).

Definition set_children (ch : list (string * Node)) : M St unit :=
  fun s => ((mk (name (fst s)) ch, snd s), Ok tt).

Definition self : M St t := fun s => (s, Ok (fst s)).

(** [DirectoryNode(name)] *)
Definition init (name : string) : t := mk name [].

Definition create_directory (nm : string) : M St t :=
  let! d := self in
  if negb (Dict.mem nm (children d)) then
    let new_dir := init nm in
    do! set_children (Dict.set nm (to_node new_dir) (children d)) in
    ret new_dir
  else raise FileExistsError.

Definition create_file (nm : string) (file_path : Path.t) : M St FileNode.t :=
  let! d := self in
  if negb (Dict.mem nm (children d)) then
    let! t1 := now in
    let! t2 := now in
    let new_file := FileNode.init nm file_path t1 t2 in
    do! set_children (Dict.set nm (FileN new_file) (children d)) in
    ret new_file
  else raise FileExistsError.

Definition set_modified_at (f : FileNode.t) (tm : Z) : FileNode.t :=
  FileNode.mk (FileNode.name f) (FileNode.file_path f) (FileNode.file_id f)
              (FileNode.size f) (FileNode.created_at f) tm.

(** [mutate_file]: the guard on the arguments, the membership test, then
    the assignment; the class of the child that is replaced is not looked
    at. The node passed is a [FileNode], never [None]. *)
Definition mutate_file (nm : string) (file_node : FileNode.t) : M St FileNode.t :=
  if String.eqb nm "" then raise FileNotFoundError
  else
    let! d := self in
    if negb (Dict.mem nm (children d)) then raise FileNotFoundError
    else
      let! tm := now in
      let file_node' := set_modified_at file_node tm in
      do! set_children (Dict.set nm (FileN file_node') (children d)) in
      ret file_node'.

(** [_collect_file_ids(node)] *)
Definition _collect_file_ids (node : t) : list string :=
  flat_map (fun kv => node_file_ids (snd kv)) (children node).

Definition delete_directory (nm : string) (recursive : bool) : M St (list string) :=
  let! d := self in
  match Dict.get nm (children d) with
  | Some (DirN cn cch) =>
      if (length cch =? 0)%nat then
        do! set_children (Dict.del nm (children d)) in
        ret []
      else if negb (length cch =? 0)%nat && recursive then
        let ids := _collect_file_ids (mk cn cch) in
        ret ids
      else raise EnvironmentError
  | _ => raise FileNotFoundError
  end.

Definition delete_file (nm : string) : M St FileNode.t :=
  let! d := self in
  match Dict.get nm (children d) with
  | Some (FileN f) =>
      do! set_children (Dict.del nm (children d)) in
      ret f
  | _ => raise FileNotFoundError
  end.

Definition set_file_path (f : FileNode.t) (p : Path.t) : FileNode.t :=
  FileNode.mk (FileNode.name f) p (FileNode.file_id f)
              (FileNode.size f) (FileNode.created_at f) (FileNode.modified_at f).

(** [parts[-(2 + depth)] = new_name] on a Python list. *)
Definition set_from_end (parts : list string) (k : nat) (v : string)
  : option (list string) :=
  if (length parts <? k)%nat then None
  else Some (<[(length parts - k)%nat := v]> parts).

(** [_rename_directory_helper(new_name, node, depth)] on the children of
    [node]: a file child gets its path rewritten in place and contributes
    the pair of its stored id and of the id computed from the new path (the
    computed id is not stored); a directory child makes the call
    [self._collect_file_ids(new_name, child, depth + 1)], which passes three
    arguments to a one-argument method and raises [TypeError]. The children
    already visited keep their new paths when an exception is raised. *)
Fixpoint _rename_directory_helper (new_name : string) (depth : nat)
    (ch : list (string * Node))
  : list (string * Node) * result (list (string * string)) :=
  match ch with
  | [] => ([], Ok [])
  | (k, FileN f) :: r =>
      match set_from_end (Path.parts (FileNode.file_path f)) (2 + depth) new_name with
      | None => (ch, Raise IndexError)
      | Some parts' =>
          let f' := set_file_path f (Path.of_segments parts') in
          let old_id := FileNode.file_id f' in
          let new_id := FileNode.generate_file_id f' in
          let '(r', res) := _rename_directory_helper new_name depth r in
          ((k, FileN f') :: r',
           match res with
           | Ok ids => Ok ((old_id, new_id) :: ids)
           | Raise e => Raise e
           end)
      end
  | (k, DirN _ _) :: r => (ch, Raise TypeError)
  end.

Definition rename_directory (old_name new_name : string)
  : M St (list (string * string)) :=
  let! d := self in
  match Dict.get old_name (children d) with
  | Some (DirN _ cch) =>
      (* children[old_name].name = new_name;
         children[new_name] = children.pop(old_name) *)
      let popped := Dict.del old_name (children d) in
      let '(cch', res) := _rename_directory_helper new_name 0 cch in
      do! set_children (Dict.set new_name (DirN new_name cch') popped) in
      match res with
      | Ok ids => ret ids
      | Raise e => raise e
      end
  | _ => raise FileNotFoundError
  end.

Definition rename_file (old_name new_name : string) : M St FileNode.t :=
  let! d := self in
  match Dict.get old_name (children d) with
  | Some (FileN f) =>
      let! tm := now in
      let f' := FileNode.rename f new_name tm in
      (* children[new_name] = children[old_name]; del children[old_name] *)
      let ch1 := Dict.set new_name (FileN f') (Dict.set old_name (FileN f') (children d)) in
      let ch2 := Dict.del old_name ch1 in
      do! set_children ch2 in
      match Dict.get new_name ch2 with
      | Some (FileN g) => ret g
      | Some (DirN _ _) => raise AttributeError
      | None => raise KeyError
      end
  | _ => raise FileNotFoundError
  end.

(** The loop of [get_file]: it stops at the first part that names a file
    child and otherwise descends. *)
Fixpoint get_file_loop (current_dir : t) (path : list string) : result t :=
  match path with
  | [] => Ok current_dir
  | part :: rest =>
      match Dict.get part (children current_dir) with
      | Some (FileN _) => Ok current_dir
      | Some (DirN nm ch) => get_file_loop (mk nm ch) rest
      | None => Raise FileNotFoundError
      end
  end.

Definition get_file (d : t) (path : list string) : result FileNode.t :=
  match get_file_loop d (slice_1 path) with
  | Raise e => Raise e
  | Ok current_dir =>
      match index_last path with
      | None => Raise IndexError
      | Some file_name =>
          match Dict.get file_name (children current_dir) with
          | Some (FileN f) => Ok f
          | _ => Raise FileNotFoundError
          end
      end
  end.

(** [list()] *)
Definition list_names (d : t) : list string :=
  map node_name (Dict.values (children d)).

End DirectoryNode.

(** ** The snapshot document

    [json.dump] followed by [json.load] gives back the same document, so a
    snapshot file holds the document itself: a directory carries its name
    and its children, a file carries its name, size, path, id and the two
    timestamps. *)
Unset Elimination Schemes.
Inductive Doc : Type :=
| DFile (name : string) (size : Z) (file_path : string) (file_id : string)
        (created_at modified_at : Z)
| DDir (name : string) (children : list (string * Doc)).
Set Elimination Schemes.

(** ** [FileSystem] *)
Module FileSystem.

(** The store: the tree, the blob directory [base_data_folder] (blob name
    to content), the clock and the snapshot files. *)
Record World : Type := mkWorld {
  root : Node;
  blobs : gmap string bytes;
  clock : Clock;
  disk : gmap string Doc
}.

(** A reference to a directory of the tree: the child keys from the root. *)
Abbreviation cursor := (list string).

Fixpoint get_at (n : Node) (c : cursor) : option Node :=
  match c with
  | [] => Some n
  | k :: c' =>
      match n with
      | DirN _ ch =>
          match Dict.get k ch with
          | Some m => get_at m c'
          | None => None
          end
      | FileN _ => None
      end
  end.

Fixpoint set_at (n : Node) (c : cursor) (v : Node) : Node :=
  match c with
  | [] => v
  | k :: c' =>
      match n with
      | DirN nm ch =>
          match Dict.get k ch with
          | Some m => DirN nm (Dict.set k (set_at m c' v) ch)
          | None => n
          end
      | FileN _ => n
      end
  end.

(** The arguments the methods take where a path is expected. *)
Inductive path_arg : Type :=
| PStr (s : string)
| PPath (p : Path.t)
| PNode (f : FileNode.t).

(** [Path(path)] *)
Definition to_Path (a : path_arg) : result Path.t :=
  match a with
  | PStr s => Ok (Path.of_str s)
  | PPath p => Ok p
  | PNode _ => Raise TypeError
  end.

Definition lift {A} (r : result A) : M World A := fun w => (w, r).

Definition _validate_and_split_path (path : path_arg) : result (list string) :=
  match to_Path path with
  | Raise e => Raise e
  | Ok p =>
      if negb (Path.is_absolute p) then Raise ValueError
      else Ok (List.filter (fun part => negb (String.eqb part "")) (Path.parts p))
  end.

Definition node_at (c : cursor) : M World Node :=
  fun w => match get_at (root w) c with
           | Some n => (w, Ok n)
           | None => (w, Raise AttributeError)
           end.

(** Runs a [DirectoryNode] method on the directory a cursor refers to. *)
Definition on_dir {A} (c : cursor) (m : M DirectoryNode.St A) : M World A :=
  fun w => match get_at (root w) c with
           | Some (DirN nm ch) =>
               let '((d', ck'), r) := m (DirectoryNode.mk nm ch, clock w) in
               (mkWorld (set_at (root w) c (DirectoryNode.to_node d'))
                        (blobs w) ck' (disk w), r)
           | _ => (w, Raise AttributeError)
           end.

(** [current_dir.children] *)
Definition children_at (c : cursor) : M World (list (string * Node)) :=
  let! n := node_at c in
  match n with
  | DirN _ ch => ret ch
  | FileN _ => raise AttributeError
  end.

Definition now : M World Z :=
  fun w => let '(tm, c) := time_time (clock w) in
           (mkWorld (root w) (blobs w) c (disk w), Ok tm).

Definition set_blobs (b : gmap string bytes) : M World unit :=
  fun w => (mkWorld (root w) b (clock w) (disk w), Ok tt).

Definition get_blobs : M World (gmap string bytes) := fun w => (w, Ok (blobs w)).

(** Writing the blob named [id], as [open(..., 'w')] and [f.write] do. *)
Definition blob_write (id : string) (data : bytes) : M World Z :=
  let! b := get_blobs in
  do! set_blobs (<[id := data]> b) in
  ret (Z.of_nat (length data)).

(** [if path.exists(): os.remove(path)] *)
Definition blob_remove_if_exists (id : string) : M World unit :=
  let! b := get_blobs in
  match b !! id with
  | Some _ => set_blobs (base.delete id b)
  | None => ret tt
  end.

(** [os.rename(old, new)] inside the blob directory. *)
Definition blob_rename (old_id new_id : string) : M World unit :=
  let! b := get_blobs in
  match b !! old_id with
  | Some data => set_blobs (<[new_id := data]> (base.delete old_id b))
  | None => raise FileNotFoundError
  end.

Definition _traverse_directory (current_dir : cursor) (part : string) : M World cursor :=
  let! n := node_at current_dir in
  if String.eqb (node_name n) part then ret current_dir
  else
    match n with
    | DirN _ ch =>
        match Dict.get part ch with
        | Some (DirN _ _) => ret (current_dir ++ [part])%list
        | _ => raise FileNotFoundError
        end
    | FileN _ => raise AttributeError
    end.

Definition last_part (parts : list string) : M World string :=
  match index_last parts with
  | Some x => ret x
  | None => raise IndexError
  end.

Definition traverse_all (parts : list string) : M World cursor :=
  for_each parts [] _traverse_directory.

(** [create_directory(path)]; the directory returned is given by its
    cursor. *)
Definition create_directory (path : path_arg) : M World cursor :=
  let! parts := lift (_validate_and_split_path path) in
  let! current_dir := traverse_all (slice_to_last parts) in
  let! nm := last_part parts in
  do! on_dir current_dir (DirectoryNode.create_directory nm) in
  ret (current_dir ++ [nm])%list.

Definition set_size (f : FileNode.t) (sz : Z) : FileNode.t :=
  FileNode.mk (FileNode.name f) (FileNode.file_path f) (FileNode.file_id f)
              sz (FileNode.created_at f) (FileNode.modified_at f).

Definition create_file (path : path_arg) (content : string) : M World FileNode.t :=
  let! parts := lift (_validate_and_split_path path) in
  let! current_dir := traverse_all (slice_1_to_last parts) in
  let! p := lift (to_Path path) in
  let! nm := last_part parts in
  let! new_file := on_dir current_dir (DirectoryNode.create_file nm p) in
  let! written := blob_write (FileNode.file_id new_file) (encode content) in
  (* new_file.size = f.write(content): the node is the one in the tree *)
  let new_file' := set_size new_file written in
  do! on_dir current_dir
        (let! d := DirectoryNode.self in
         DirectoryNode.set_children (Dict.set nm (FileN new_file') (DirectoryNode.children d))) in
  ret new_file'.

(** The body of the loop of [open]; the loop carries [current_dir] and
    [t_path]. *)
Definition open_step (st : cursor * string) (part : string) : M World (cursor * string) :=
  let t_path := snd st ++ "/" ++ part in
  let! current_dir :=
    try_except (_traverse_directory (fst st) part) FileNotFoundError
               (create_directory (PStr (Path.as_posix (Path.of_str t_path)))) in
  ret (current_dir, t_path).

Definition open (file_path : path_arg) (file_node : option FileNode.t) : M World Node :=
  let! parts := lift (_validate_and_split_path file_path) in
  let! loop := for_each (slice_1_to_last parts) ([], "") open_step in
  let current_dir := fst loop in
  let! nm := last_part parts in
  let! ch := children_at current_dir in
  let! file_to_open :=
    match Dict.get nm ch with
    | Some n => ret n
    | None => let! f := create_file file_path "" in ret (FileN f)
    end in
  match file_node with
  | Some fn =>
      let! fn' := on_dir current_dir (DirectoryNode.mutate_file nm fn) in
      ret (FileN fn')
  | None => ret file_to_open
  end.

(** [if isinstance(file, FileNode): file = file.file_path] *)
Definition unwrap_node (file : path_arg) : path_arg :=
  match file with
  | PNode f => PPath (FileNode.file_path f)
  | _ => file
  end.

Definition delete (file : path_arg) : M World FileNode.t :=
  let file := unwrap_node file in
  let! parts := lift (_validate_and_split_path file) in
  let! current_dir := traverse_all (slice_1_to_last parts) in
  let! nm := last_part parts in
  let! ch := children_at current_dir in
  match Dict.get nm ch with
  | Some (FileN file_to_delete) =>
      do! blob_remove_if_exists (FileNode.file_id file_to_delete) in
      on_dir current_dir (DirectoryNode.delete_file nm)
  | _ => raise FileNotFoundError
  end.

Definition mutate (file : path_arg) (new_file_node : FileNode.t) : M World FileNode.t :=
  let file := unwrap_node file in
  let! parts := lift (_validate_and_split_path file) in
  let! current_dir := traverse_all (slice_1_to_last parts) in
  let! nm := last_part parts in
  let! ch := children_at current_dir in
  match Dict.get nm ch with
  | Some (FileN _) =>
      let! tm := now in
      let new_file_node := DirectoryNode.set_modified_at new_file_node tm in
      on_dir current_dir (DirectoryNode.mutate_file nm new_file_node)
  | _ => raise FileNotFoundError
  end.

Definition delete_directory (path : path_arg) : M World unit :=
  let! parts := lift (_validate_and_split_path path) in
  let! st :=
    for_each (slice_1_to_last parts) ([], 0%Z)
      (fun st part =>
         let! current_dir := _traverse_directory (fst st) part in
         ret (current_dir, snd st + 1)) in
  let current_dir := fst st in
  if snd st <? Z.of_nat (length (slice_to_last parts)) - 1 then raise FileNotFoundError
  else
    let! nm := last_part parts in
    let! ch := children_at current_dir in
    match Dict.get nm ch with
    | None => raise KeyError
    | Some (FileN _) => raise AttributeError
    | Some (DirN _ cch) =>
        if negb (length cch =? 0)%nat then raise EnvironmentError
        else
          do! on_dir current_dir (DirectoryNode.delete_directory nm false) in
          ret tt
    end.

Definition delete_file (path : path_arg) : M World unit :=
  let! parts := lift (_validate_and_split_path path) in
  let! current_dir := traverse_all (slice_to_last parts) in
  let! nm := last_part parts in
  let! ch := children_at current_dir in
  match Dict.get nm ch with
  | Some (FileN file_to_delete) =>
      do! blob_remove_if_exists (FileNode.file_id file_to_delete) in
      do! on_dir current_dir (DirectoryNode.delete_file nm) in
      ret tt
  | _ => raise FileNotFoundError
  end.

(** [rename_directory]: the pairs of ids the tree method returns are
    dropped and no blob is touched. *)
Definition rename_directory (old_path : path_arg) (new_name : string) : M World unit :=
  let! parts := lift (_validate_and_split_path old_path) in
  let! current_dir := traverse_all (slice_to_last parts) in
  let! nm := last_part parts in
  do! on_dir current_dir (DirectoryNode.rename_directory nm new_name) in
  ret tt.

Definition dir_at (c : cursor) : M World DirectoryNode.t :=
  let! n := node_at c in
  match n with
  | DirN nm ch => ret (DirectoryNode.mk nm ch)
  | FileN _ => raise AttributeError
  end.

Definition rename_file (old_path : path_arg) (new_name : string) : M World unit :=
  let! parts := lift (_validate_and_split_path old_path) in
  let! current_dir := traverse_all (slice_to_last parts) in
  let! d := dir_at current_dir in
  let! old := lift (DirectoryNode.get_file d (slice_1 parts)) in
  let old_id := FileNode.file_id old in
  let! nm := last_part parts in
  let! file := on_dir current_dir (DirectoryNode.rename_file nm new_name) in
  blob_rename old_id (FileNode.file_id file).

Definition get_file_node (abs_path : path_arg) : M World FileNode.t :=
  let! parts := lift (_validate_and_split_path abs_path) in
  let! d := dir_at [] in
  lift (DirectoryNode.get_file d parts).

Definition get_file (abs_path : path_arg) : M World bytes :=
  let! parts := lift (_validate_and_split_path abs_path) in
  let! d := dir_at [] in
  let! file_node := lift (DirectoryNode.get_file d parts) in
  let! b := get_blobs in
  match b !! FileNode.file_id file_node with
  | Some data => ret data
  | None => raise FileNotFoundError
  end.

Definition save_file (abs_path : path_arg) (data : bytes) : M World Z :=
  let! parts := lift (_validate_and_split_path abs_path) in
  let! d := dir_at [] in
  let! file_node := lift (DirectoryNode.get_file d parts) in
  blob_write (FileNode.file_id file_node) data.

Fixpoint _serialize (node : Node) : Doc :=
  match node with
  | DirN nm ch => DDir nm (map (fun kv => (fst kv, _serialize (snd kv))) ch)
  | FileN f =>
      DFile (FileNode.name f) (FileNode.size f)
            (Path.as_posix (FileNode.file_path f)) (FileNode.file_id f)
            (FileNode.created_at f) (FileNode.modified_at f)
  end.

(** [_deserialize]: a file is rebuilt by the constructor
    [FileNode(data['name'], Path(data['file_path']))], which reads the clock
    twice. *)
Fixpoint _deserialize (data : Doc) (c : Clock) : Node * Clock :=
  match data with
  | DDir nm ch =>
      let fix children_of (l : list (string * Doc)) (acc : list (string * Node))
                          (c : Clock) : list (string * Node) * Clock :=
        match l with
        | [] => (acc, c)
        | (child_name, child_data) :: r =>
            let '(child, c') := _deserialize child_data c in
            children_of r (Dict.set child_name child acc) c'
        end in
      let '(ch', c') := children_of ch [] c in
      (DirN nm ch', c')
  | DFile nm _ file_path _ _ _ =>
      let '(t1, c1) := time_time c in
      let '(t2, c2) := time_time c1 in
      (FileN (FileNode.init nm (Path.of_str file_path) t1 t2), c2)
  end.

Definition save (file_path : string) : M World unit :=
  fun w => (mkWorld (root w) (blobs w) (clock w)
                    (<[file_path := _serialize (root w)]> (disk w)), Ok tt).

Definition load (file_path : string) : M World unit :=
  fun w => match disk w !! file_path with
           | Some data =>
               let '(r, c) := _deserialize data (clock w) in
               (mkWorld r (blobs w) c (disk w), Ok tt)
           | None => (w, Raise FileNotFoundError)
           end.

(** [FileSystem(root_name)] on an empty blob directory; the default
    [root_name] is ["/"]. *)
Definition init (root_name : string) (ck : Clock) : World :=
  mkWorld (DirectoryNode.to_node (DirectoryNode.init root_name)) ∅ ck ∅.

End FileSystem.

(** ** The packets of [nfs/packet.py]

    A [FileNode] travels pickled: [__getstate__] turns its path into a
    string and [__setstate__] parses the string again. The human-readable
    message of a response is not modelled. *)
Module Packet.

Definition pickle_node (f : FileNode.t) : FileNode.t :=
  DirectoryNode.set_file_path f (Path.of_str (Path.str (FileNode.file_path f))).

Inductive Request : Type :=
| OpenRequest (file_path : Path.t)
| CloseRequest (file_node : FileNode.t)
| ReadRequest (file_node : FileNode.t)
| WriteRequest (file_node : FileNode.t) (data : bytes).

(** What the server sends: an encoded response, or the bare text
    [f"Error: {e}"] of the outer handler, which is not JSON. *)
Inductive Response : Type :=
| JsonResponse (OK : bool) (file_node : option Node)
               (data : option bytes) (bytes_written : option Z)
| TextResponse.

End Packet.

(** ** The server: one request of [NFSServer.handle_nfs]

    The list [fs_calls] records, in order, the [FileSystem] methods the
    server has called; it is there to state in which order they happen. *)
Module NFSServer.

Import Packet.

Inductive FsCall : Type :=
| CallOpen (path : FileSystem.path_arg)
| CallMutate (path : FileSystem.path_arg) (node : FileNode.t)
| CallGetFile (path : FileSystem.path_arg)
| CallSaveFile (path : FileSystem.path_arg) (data : bytes).

Record t : Type := mk { fs : FileSystem.World; fs_calls : list FsCall }.

(** Calls a [FileSystem] method and records the call. *)
Definition call {A} (c : FsCall) (m : M FileSystem.World A) : M t A :=
  fun s => let '(w, r) := m (fs s) in (mk w (fs_calls s ++ [c]), r).

Definition failed : Response := JsonResponse false None None None.

(** The branch of [handle_nfs] for each action, with the responses it
    sends in order. The open and close branches send the failure response
    and then fall through to the success response; the read and write
    branches leave the loop after the failure response. *)
Definition handle_nfs (req : Request) : M t (list Response) :=
  match req with
  | OpenRequest path =>
      let file_path := Path.of_str (Path.as_posix path) in
      let p := FileSystem.PPath file_path in
      fun s =>
        match call (CallOpen p) (FileSystem.open p None) s with
        | (s', Ok file_node) => (s', Ok [JsonResponse true (Some file_node) None None])
        | (s', Raise _) => (s', Ok [failed; JsonResponse true None None None])
        end
  | CloseRequest node =>
      let file_node := pickle_node node in
      let p := FileSystem.PPath (FileNode.file_path file_node) in
      fun s =>
        match call (CallMutate p file_node) (FileSystem.mutate p file_node) s with
        | (s', Ok n) => (s', Ok [JsonResponse true (Some (FileN n)) None None])
        | (s', Raise _) => (s', Ok [failed; JsonResponse true None None None])
        end
  | ReadRequest node =>
      let file_node := pickle_node node in
      let p := FileSystem.PPath (FileNode.file_path file_node) in
      fun s =>
        match call (CallGetFile p) (FileSystem.get_file p) s with
        | (s', Ok data) => (s', Ok [JsonResponse true None (Some data) None])
        | (s', Raise _) => (s', Ok [failed])
        end
  | WriteRequest node data =>
      let file_node := pickle_node node in
      let p := FileSystem.PPath (FileNode.file_path file_node) in
      fun s =>
        match call (CallSaveFile p data) (FileSystem.save_file p data) s with
        | (s', Ok bytes_written) =>
            (* assert bytes_written == file_node.size *)
            if bytes_written =? FileNode.size file_node then
              (s', Ok [JsonResponse true (Some (FileN file_node)) None (Some bytes_written)])
            else (s', Ok [TextResponse])
        | (s', Raise _) => (s', Ok [failed])
        end
  end.

End NFSServer.

(** ** The client: [NFSClient.handle_close] *)
Module NFSClient.

Import Packet.

(** The client: the node and the lock of the file that is open, the
    content of the scratch file; and the events it has caused outside:
    lock releases and requests sent. *)
Inductive Event : Type :=
| Released (lock_path : string)
| Sent (req : Request).

Record t : Type := mk {
  current_file_node : option FileNode.t;
  current_zk_lock : option string;
  temp_file : option bytes;
  events : list Event
}.

Definition St : Type := (t * NFSServer.t)%type.

Definition client : M St t := fun s => (s, Ok (fst s)).
Definition set_client (c : t) : M St unit := fun s => ((c, snd s), Ok tt).

Definition has_file_open (c : t) : bool :=
  negb (match current_file_node c with None => true | Some _ => false end
        || match current_zk_lock c with None => true | Some _ => false end
        || match temp_file c with None => true | Some _ => false end).

(** [websocket_comm]: a connection is opened, the request is sent and the
    first message the server sends is returned. *)
Definition websocket_comm (req : Request) : M St Response :=
  fun s =>
    let c := fst s in
    let c' := mk (current_file_node c) (current_zk_lock c) (temp_file c)
                 (events c ++ [Sent req]) in
    match NFSServer.handle_nfs req (snd s) with
    | (srv, Ok (r :: _)) => ((c', srv), Ok r)
    | (srv, Ok []) => ((c', srv), Raise AssertionError)
    | (srv, Raise e) => ((c', srv), Raise e)
    end.

(** Decoding a response: a message that is not JSON makes [json.loads]
    raise [JSONDecodeError], a [ValueError]. *)
Definition decode_OK (r : Response) : M St bool :=
  match r with
  | JsonResponse OK _ _ _ => ret OK
  | TextResponse => raise ValueError
  end.

Definition zk_unlock : M St unit :=
  let! c := client in
  match current_zk_lock c with
  | None => ret tt
  | Some lock_path =>
      set_client (mk (current_file_node c) None (temp_file c)
                     (events c ++ [Released lock_path]))
  end.

Definition unlock : M St bool :=
  let! c := client in
  if negb (has_file_open c) then
    do! set_client (mk None None (temp_file c) (events c)) in
    ret false
  else
    do! set_client (mk None (current_zk_lock c) (temp_file c) (events c)) in
    do! zk_unlock in
    ret true.

(** [handle_close] for the command [close] without arguments. *)
Definition handle_close : M St unit :=
  let! c := client in
  let temp_file_node := current_file_node c in
  let! unlocked := unlock in
  if negb unlocked then ret tt
  else
    match temp_file_node, temp_file c with
    | Some temp_file_node, Some data =>
        let temp_file_size := Z.of_nat (length data) in
        if negb (FileNode.size temp_file_node =? temp_file_size)
        then raise AssertionError
        else
          let! response := websocket_comm (WriteRequest temp_file_node data) in
          let! write_OK := decode_OK response in
          if negb write_OK then ret tt
          else
            let! response := websocket_comm (CloseRequest temp_file_node) in
            let! close_OK := decode_OK response in
            if negb close_OK then ret tt
            else
              let! c := client in
              set_client (mk (current_file_node c) (current_zk_lock c) None (events c))
    | _, _ => raise AttributeError
    end.

End NFSClient.

(** ** Stores used as concrete inputs *)
Module Scenario.

Import FileSystem.

(** A clock that starts at 1000 and advances by one at each reading. *)
Definition ck0 : Clock := mkClock 0 (fun n => 1000 + Z.of_nat n).

Definition after {A} (m : M World A) (w : World) : World := fst (m w).
Definition outcome {A} (m : M World A) (w : World) : result A := snd (m w).

(** The store of the test suite: [FileSystem()] then
    [create_directory('/dir1')]. *)
Definition w_empty : World := FileSystem.init "/" ck0.
Definition w_dir1 : World := after (create_directory (PStr "/dir1")) w_empty.

(** [/dir1/file1.txt] with content ["X"]. *)
Definition w_file1 : World := after (create_file (PStr "/dir1/file1.txt") "X") w_dir1.

(** [/dir1/sub/g.txt] next to [/dir1/file1.txt]. *)
Definition w_nested : World :=
  after (create_file (PStr "/dir1/sub/g.txt") "Y")
        (after (create_directory (PStr "/dir1/sub")) w_file1).

(** [/a/a/f] with content ["old"], obtained by creating [/b/a/f] and
    renaming [/b] to [a]. *)
Definition w_aa : World :=
  after (rename_directory (PStr "/b") "a")
        (after (create_file (PStr "/b/a/f") "old")
               (after (create_directory (PStr "/b/a"))
                      (after (create_directory (PStr "/b")) w_empty))).

(** The entry stored at the end of a cursor. *)
Definition entry (w : World) (c : cursor) : option Node := get_at (root w) c.

Definition file1 : FileNode.t :=
  FileNode.mk "file1.txt" (Path.of_str "/dir1/file1.txt")
              (FileNode.hash_id "file1.txt" (Path.of_str "/dir1/file1.txt"))
              1 1000 1001.

End Scenario.

(** * Vocabulary of the statements *)

Import FileSystem.
Import Packet.

(** The invariant of the data model: the id of a file entry is the hash of
    its name followed by its path. *)
Definition id_invariant (f : FileNode.t) : Prop :=
  FileNode.file_id f = FileNode.hash_id (FileNode.name f) (FileNode.file_path f).

(** The claim of C8 at one call: the call fails with [FileNotFoundError]
    exactly when the name is absent or names something that is not a file. *)
Definition mutate_file_fails_exactly
    (d : DirectoryNode.t) (ck : Clock) (nm : string) (fn : FileNode.t) : Prop :=
  snd (DirectoryNode.mutate_file nm fn (d, ck)) = Raise FileNotFoundError
  <-> (Dict.get nm (DirectoryNode.children d) = None
       \/ exists n, Dict.get nm (DirectoryNode.children d) = Some n /\ is_file n = false).

(** A path argument is relative when it is a string or a path and
    [is_absolute()] is false. *)
Definition relative (a : path_arg) : Prop :=
  exists p, to_Path a = Ok p /\ Path.is_absolute p = false.

(** No slash in a string. *)
Fixpoint no_slash (s : string) : bool :=
  match s with
  | EmptyString => true
  | String c r => negb (Ascii.eqb c Path.slash) && no_slash r
  end.

(** A component as the parser of paths produces them: not empty, not
    ["."], without a slash. *)
Definition component (x : string) : Prop :=
  Path.keep_component x = true /\ no_slash x = true.

(** [t_path] after the loop of [open] has gone through [l]. *)
Definition t_path_of (l : list string) : string :=
  fold_left (fun acc part => acc ++ "/" ++ part) l "".

(** [chain n segs]: from [n], every part of [segs] names a subdirectory
    and differs from the name of the directory it is looked up in. *)
Fixpoint chain (n : Node) (segs : list string) : Prop :=
  match segs with
  | [] => is_dir n = true
  | s :: rest =>
      match n with
      | FileN _ => False
      | DirN nm ch =>
          nm <> s /\
          match Dict.get s ch with
          | Some m => chain m rest
          | None => False
          end
      end
  end.

(** No two neighbours equal in [prev :: segs]. *)
Fixpoint no_repeat (prev : string) (segs : list string) : bool :=
  match segs with
  | [] => true
  | s :: rest => negb (String.eqb prev s) && no_repeat s rest
  end.

(** The paths on which [open] is specified. Walking the intermediate parts
    from a directory: each part differs from the name of the directory it
    is looked up in and names a subdirectory or nothing, never a file; past
    the first part that names nothing, no part repeats the one before it. *)
Fixpoint admissible (n : Node) (segs : list string) : bool :=
  match segs with
  | [] => is_dir n
  | s :: rest =>
      match n with
      | FileN _ => false
      | DirN nm ch =>
          negb (String.eqb nm s)
          && match Dict.get s ch with
             | Some m => admissible m rest
             | None => no_repeat s rest
             end
      end
  end.

(** * Properties *)

(** ** The hash against the published test vectors *)

Example sha256_empty :
  SHA256.hexdigest [] = "e3b0c44298fc1c149afbf4c8996fb92427ae41e4649b934ca495991b7852b855".
Proof. vm_compute. reflexivity. Qed.

Example sha256_abc :
  SHA256.hexdigest (encode "abc")
  = "ba7816bf8f01cfea414140de5dae2223b00361a396177a9cb410ff61f20015ad".
Proof. vm_compute. reflexivity. Qed.

Example sha256_two_blocks :
  SHA256.hexdigest (encode "aaaaaaaaaaaaaaaaaaaaaaaaaaaaaaaaaaaaaaaaaaaaaaaaaaaaaaaaaaaaaaaaaaaaaa")
  = "6bd5e5034855a11241f0dee8fc72850ffd9955b28347a86428b5fa19119f6ad0".
Proof. vm_compute. reflexivity. Qed.

Example file1_in_store :
  Scenario.entry Scenario.w_file1 ["dir1"; "file1.txt"] = Some (FileN Scenario.file1).
Proof. vm_compute. reflexivity. Qed.

(** ** Identity of file entries *)


Lemma init_id_invariant nm p t1 t2 : id_invariant (FileNode.init nm p t1 t2).
Proof. reflexivity. Qed.

(** A file created in a directory is stored with the id derived from its
    name and path. *)
Lemma create_file_id_invariant d ck nm p d' ck' f :
  DirectoryNode.create_file nm p (d, ck) = ((d', ck'), Ok f) ->
  id_invariant f /\ FileNode.name f = nm /\ FileNode.file_path f = p /\
  FileNode.size f = 0 /\
  Dict.get nm (DirectoryNode.children d) = None.
Proof.
  unfold DirectoryNode.create_file, bind, DirectoryNode.self,
    DirectoryNode.now, DirectoryNode.set_children, ret, raise, Dict.mem; simpl.
  destruct (Dict.get nm (DirectoryNode.children d)) eqn:E; simpl; intros H;
    inversion H; subst; clear H.
  split; [apply init_id_invariant|]. repeat split.
Qed.

(** [rename] derives the new id from the new name and the path the file
    had before the call. *)
Lemma rename_id f new_name now :
  FileNode.file_id (FileNode.rename f new_name now)
  = FileNode.hash_id new_name (FileNode.file_path f).
Proof. reflexivity. Qed.

Lemma rename_path f new_name now :
  FileNode.file_path (FileNode.rename f new_name now)
  = Path.joinpath (Path.parent (FileNode.file_path f)) new_name.
Proof. reflexivity. Qed.

(** C1 (the code departs from the claim): renaming [/d/a.txt] to [b.txt]
    leaves an entry named [b.txt] at [/d/b.txt] whose id is the hash of
    ["b.txt" ++ "/d/a.txt"], the old path, and not of its name and path;
    the same entry is what the store holds after [rename_file]. *)
Theorem C1_rename_id_keeps_old_path :
  let f := FileNode.init "a.txt" (Path.of_str "/d/a.txt") 1 2 in
  let f' := FileNode.rename f "b.txt" 3 in
  id_invariant f /\
  FileNode.name f' = "b.txt" /\
  Path.str (FileNode.file_path f') = "/d/b.txt" /\
  FileNode.file_id f' = SHA256.hexdigest (encode "b.txt/d/a.txt") /\
  FileNode.hash_id (FileNode.name f') (FileNode.file_path f')
    = SHA256.hexdigest (encode "b.txt/d/b.txt") /\
  ~ id_invariant f' /\
  (exists g,
     Scenario.entry
       (Scenario.after (FileSystem.rename_file (FileSystem.PStr "/dir1/file1.txt") "b.txt")
                       Scenario.w_file1)
       ["dir1"; "b.txt"] = Some (FileN g) /\
     FileNode.file_path g = Path.of_str "/dir1/b.txt" /\
     ~ id_invariant g).
Proof.
  cbv zeta.
  split; [reflexivity|].
  split; [reflexivity|].
  split; [vm_compute; reflexivity|].
  split; [vm_compute; reflexivity|].
  split; [vm_compute; reflexivity|].
  split; [unfold id_invariant; vm_compute; discriminate|].
  eexists. split; [vm_compute; reflexivity|].
  split; [vm_compute; reflexivity|].
  unfold id_invariant. vm_compute. discriminate.
Qed.

(** ** Dictionaries and cursors *)

Section DictFacts.
Context {V : Type}.
Implicit Types (d : list (string * V)) (k : string) (v : V).

Lemma dict_get_set_same k v d : Dict.get k (Dict.set k v d) = Some v.
Proof.
  induction d as [|[k' v'] d IH]; simpl.
  - now rewrite String.eqb_refl.
  - destruct (String.eqb k' k) eqn:E; simpl; rewrite E; auto.
Qed.

Lemma dict_get_set_other k k' v d :
  k <> k' -> Dict.get k' (Dict.set k v d) = Dict.get k' d.
Proof.
  intros Hne. induction d as [|[k0 v0] d IH]; simpl.
  - destruct (String.eqb k k') eqn:E; auto.
    apply String.eqb_eq in E. contradiction.
  - destruct (String.eqb k0 k) eqn:E; simpl.
    + apply String.eqb_eq in E. subst k0.
      destruct (String.eqb k k') eqn:E'; auto.
      apply String.eqb_eq in E'. contradiction.
    + now rewrite IH.
Qed.

Lemma dict_set_get_id k v d : Dict.get k d = Some v -> Dict.set k v d = d.
Proof.
  induction d as [|[k' v'] d IH]; simpl; [discriminate|].
  destruct (String.eqb k' k) eqn:E.
  - now intros [= ->].
  - intros H. now rewrite IH.
Qed.

End DictFacts.

Lemma removelast_length {A} (l : list A) :
  length (removelast l) = Nat.pred (length l).
Proof.
  rewrite removelast_firstn_len, List.length_firstn. lia.
Qed.

Lemma get_at_set_at c : forall n m v,
  get_at n c = Some m -> get_at (set_at n c v) c = Some v.
Proof.
  induction c as [|k c IH]; intros n m v; simpl; [reflexivity|].
  destruct n as [f|nm ch]; [discriminate|].
  destruct (Dict.get k ch) as [x|] eqn:E; [|discriminate].
  intros H. simpl. rewrite dict_get_set_same. eapply IH; eauto.
Qed.

Lemma set_at_get_id c : forall n m, get_at n c = Some m -> set_at n c m = n.
Proof.
  induction c as [|k c IH]; intros n m; simpl.
  - now intros [= ->].
  - destruct n as [f|nm ch]; [discriminate|].
    destruct (Dict.get k ch) as [x|] eqn:E; [|discriminate].
    intros H. rewrite (IH _ _ H). now rewrite dict_set_get_id.
Qed.

Lemma get_at_app c1 : forall n c2,
  get_at n (c1 ++ c2)%list = match get_at n c1 with
                        | Some m => get_at m c2
                        | None => None
                        end.
Proof.
  induction c1 as [|k c1 IH]; intros n c2; simpl; [reflexivity|].
  destruct n as [f|nm ch]; [reflexivity|].
  destruct (Dict.get k ch); [apply IH|reflexivity].
Qed.

Lemma world_eta w : mkWorld (root w) (blobs w) (clock w) (disk w) = w.
Proof. now destruct w. Qed.

(** A traversal step reads the tree and leaves the store as it is. *)
Lemma traverse_directory_pure c part w :
  fst (_traverse_directory c part w) = w.
Proof.
  unfold _traverse_directory, bind, node_at, ret, raise.
  destruct (get_at (root w) c) as [n|]; [|reflexivity].
  destruct (String.eqb (node_name n) part); [reflexivity|].
  destruct n as [f|nm ch]; [reflexivity|].
  destruct (Dict.get part ch) as [[?|? ?]|]; reflexivity.
Qed.

Lemma traverse_all_pure parts : forall c w,
  fst (for_each parts c _traverse_directory w) = w.
Proof.
  induction parts as [|p parts IH]; intros c w; simpl; [reflexivity|].
  unfold bind.
  pose proof (traverse_directory_pure c p w) as Hp.
  destruct (_traverse_directory c p w) as [w1 [c1|e]]; simpl in Hp; subst w1.
  - apply IH.
  - reflexivity.
Qed.

(** The counting loop of [delete_directory] walks as [traverse_all] does. *)
Lemma counting_loop parts : forall c i w,
  for_each parts (c, i)
    (fun st part =>
       let! current_dir := _traverse_directory (fst st) part in
       ret (current_dir, snd st + 1)) w
  = match for_each parts c _traverse_directory w with
    | (w', Ok c') => (w', Ok (c', i + Z.of_nat (length parts)))
    | (w', Raise e) => (w', Raise e)
    end.
Proof.
  induction parts as [|p parts IH]; intros c i w; simpl.
  - unfold ret. now rewrite Z.add_0_r.
  - unfold bind at 1 2 4. simpl.
    destruct (_traverse_directory c p w) as [w1 [c1|e]]; [|reflexivity].
    unfold ret at 1. rewrite IH.
    destruct (for_each parts c1 _traverse_directory w1) as [w2 [c2|e]]; [|reflexivity].
    do 3 f_equal. lia.
Qed.

(** ** Deleting a directory *)

Lemma delete_directory_empty d ck nm cn :
  Dict.get nm (DirectoryNode.children d) = Some (DirN cn []) ->
  forall recursive,
  DirectoryNode.delete_directory nm recursive (d, ck)
  = ((DirectoryNode.mk (DirectoryNode.name d) (Dict.del nm (DirectoryNode.children d)), ck),
     Ok []).
Proof.
  intros H recursive.
  unfold DirectoryNode.delete_directory, bind, DirectoryNode.self; simpl.
  now rewrite H.
Qed.

(** With [recursive=True] a non-empty directory is only read: its file ids
    are returned and the parent keeps it. *)
Lemma delete_directory_recursive_nonempty d ck nm cn cch :
  Dict.get nm (DirectoryNode.children d) = Some (DirN cn cch) ->
  cch <> [] ->
  DirectoryNode.delete_directory nm true (d, ck)
  = ((d, ck), Ok (node_file_ids (DirN cn cch))).
Proof.
  intros H Hne.
  unfold DirectoryNode.delete_directory, bind, DirectoryNode.self; simpl.
  rewrite H. destruct cch as [|x cch]; [contradiction|]. reflexivity.
Qed.

Lemma delete_directory_nonempty d ck nm cn cch :
  Dict.get nm (DirectoryNode.children d) = Some (DirN cn cch) ->
  cch <> [] ->
  DirectoryNode.delete_directory nm false (d, ck) = ((d, ck), Raise EnvironmentError).
Proof.
  intros H Hne.
  unfold DirectoryNode.delete_directory, bind, DirectoryNode.self; simpl.
  rewrite H. destruct cch as [|x cch]; [contradiction|]. reflexivity.
Qed.

(** C9: for a directory [nm] with at least one child, stored in any
    directory of the tree, [delete_directory] with [recursive=False] raises
    [EnvironmentError] (the NotEmpty failure) and changes nothing: on the
    parent alone, run in place on the parent inside the store, and through
    [FileSystem.delete_directory] on a path that leads to it. *)
Theorem C9_delete_nonempty_fails_unchanged
    (w : World) (cur : cursor) (dn : string) (ch : list (string * Node))
    (nm cn : string) (cch : list (string * Node)) :
  get_at (root w) cur = Some (DirN dn ch) ->
  Dict.get nm ch = Some (DirN cn cch) ->
  cch <> [] ->
  DirectoryNode.delete_directory nm false (DirectoryNode.mk dn ch, clock w)
    = ((DirectoryNode.mk dn ch, clock w), Raise EnvironmentError)
  /\ on_dir cur (DirectoryNode.delete_directory nm false) w = (w, Raise EnvironmentError)
  /\ forall path parts,
       _validate_and_split_path path = Ok parts ->
       traverse_all (slice_1_to_last parts) w = (w, Ok cur) ->
       index_last parts = Some nm ->
       FileSystem.delete_directory path w = (w, Raise EnvironmentError).
Proof.
  intros Hcur Hget Hne.
  assert (Hdn : DirectoryNode.delete_directory nm false (DirectoryNode.mk dn ch, clock w)
                = ((DirectoryNode.mk dn ch, clock w), Raise EnvironmentError))
    by (apply (delete_directory_nonempty _ _ nm cn cch); assumption).
  split; [exact Hdn|]. split.
  - unfold on_dir. rewrite Hcur, Hdn. simpl.
    unfold DirectoryNode.to_node; simpl.
    rewrite (set_at_get_id _ _ _ Hcur). now rewrite world_eta.
  - intros path parts Hv Htr Hlast.
    unfold FileSystem.delete_directory, bind at 1, lift. rewrite Hv.
    unfold bind at 1. rewrite counting_loop.
    unfold traverse_all in Htr. rewrite Htr. cbn [fst snd].
    assert (Hlen : (0 + Z.of_nat (length (slice_1_to_last parts))
                    <? Z.of_nat (length (slice_to_last parts)) - 1) = false).
    { apply Z.ltb_ge. unfold slice_1_to_last, slice_to_last.
      rewrite !removelast_length.
      destruct parts as [|p0 parts]; simpl; lia. }
    rewrite Hlen.
    unfold bind, last_part. rewrite Hlast. unfold ret, children_at, bind, node_at.
    rewrite Hcur. unfold ret. rewrite Hget.
    destruct cch as [|x cch]; [contradiction|]. reflexivity.
Qed.

(** C9 at the store of the test suite: [/dir1] holds [file1.txt]. *)
Lemma C9_witness :
  FileSystem.delete_directory (PStr "/dir1") Scenario.w_file1
  = (Scenario.w_file1, Raise EnvironmentError).
Proof.
  refine (proj2 (proj2 (C9_delete_nonempty_fails_unchanged
            Scenario.w_file1 [] "/"
            [("dir1", DirN "dir1" [("file1.txt", FileN Scenario.file1)])]
            "dir1" "dir1" [("file1.txt", FileN Scenario.file1)] _ _ _))
          (PStr "/dir1") ["/"; "dir1"] _ _ _).
  - vm_compute. reflexivity.
  - reflexivity.
  - discriminate.
  - reflexivity.
  - vm_compute. reflexivity.
  - reflexivity.
Defined.

(** C4 (the code departs from the claim): [delete_directory("dir1",
    recursive=True)] on the parent of a directory that holds [file1.txt]
    returns the id of that file and leaves parent and subtree as they were:
    the directory is still there, alone on the parent and inside the store.
    Only the empty case deletes. *)
Theorem C4_recursive_delete_keeps_subtree :
  let sub := DirN "dir1" [("file1.txt", FileN Scenario.file1)] in
  let parent := DirectoryNode.mk "/" [("dir1", sub)] in
  DirectoryNode.delete_directory "dir1" true (parent, Scenario.ck0)
    = ((parent, Scenario.ck0), Ok [FileNode.file_id Scenario.file1])
  /\ root Scenario.w_file1 = DirectoryNode.to_node parent
  /\ on_dir [] (DirectoryNode.delete_directory "dir1" true) Scenario.w_file1
     = (Scenario.w_file1, Ok [FileNode.file_id Scenario.file1])
  /\ Scenario.entry Scenario.w_file1 ["dir1"; "file1.txt"] = Some (FileN Scenario.file1)
  /\ DirectoryNode.delete_directory "dir1" true
       (DirectoryNode.mk "/" [("dir1", DirN "dir1" [])], Scenario.ck0)
     = ((DirectoryNode.mk "/" [], Scenario.ck0), Ok []).
Proof.
  cbv zeta.
  split; [vm_compute; reflexivity|].
  split; [vm_compute; reflexivity|].
  split; [vm_compute; reflexivity|].
  split; [vm_compute; reflexivity|].
  reflexivity.
Qed.

(** ** Replacing a file entry *)


(** C8, counterexample: a file created under the empty name is present and
    is a file, and [mutate_file] on that name raises [FileNotFoundError],
    by the guard on its arguments. *)
Lemma C8_counterexample :
  let d := fst (fst (DirectoryNode.create_file "" (Path.of_str "/x")
                       (DirectoryNode.init "/", Scenario.ck0))) in
  (exists f, Dict.get "" (DirectoryNode.children d) = Some (FileN f))
  /\ ~ mutate_file_fails_exactly d Scenario.ck0 "" Scenario.file1.
Proof.
  cbv zeta. split.
  - eexists. vm_compute. reflexivity.
  - unfold mutate_file_fails_exactly. intros [Hfwd _].
    destruct (Hfwd eq_refl) as [Habs | [n [Hn Hfile]]].
    + vm_compute in Habs. discriminate.
    + vm_compute in Hn. injection Hn as <-. discriminate.
Qed.

(** The child that [mutate_file] replaces can be a directory: the call
    succeeds and the subtree is gone. *)
Lemma mutate_file_replaces_directory :
  let parent := DirectoryNode.mk "/" [("dir1", DirN "dir1" [("file1.txt", FileN Scenario.file1)])] in
  exists f,
    DirectoryNode.mutate_file "dir1" Scenario.file1 (parent, Scenario.ck0)
    = ((DirectoryNode.mk "/" [("dir1", FileN f)], mkClock 1 (oracle Scenario.ck0)), Ok f).
Proof. eexists. vm_compute. reflexivity. Qed.

(** C8, as amended: for a non-empty name under which the parent stores a
    file, [mutate_file] stores the new entry under that name with
    [modified_at] set to the clock reading and returns it; for an empty
    name or a name absent from the children it raises [FileNotFoundError]
    and changes nothing; and [FileSystem.mutate] raises
    [FileNotFoundError], changing nothing, when the last part of the path
    is absent from the directory reached or names a directory. *)
Theorem C8_mutate_file_replaces_or_fails
    (d : DirectoryNode.t) (ck : Clock) (nm : string) (fn : FileNode.t) :
  (nm <> "" ->
   forall f0, Dict.get nm (DirectoryNode.children d) = Some (FileN f0) ->
   let fn' := DirectoryNode.set_modified_at fn (oracle ck (calls ck)) in
   let ch' := Dict.set nm (FileN fn') (DirectoryNode.children d) in
   DirectoryNode.mutate_file nm fn (d, ck)
     = ((DirectoryNode.mk (DirectoryNode.name d) ch', mkClock (S (calls ck)) (oracle ck)),
        Ok fn')
   /\ Dict.get nm ch' = Some (FileN fn')
   /\ FileNode.modified_at fn' = fst (time_time ck))
  /\ (nm = "" \/ Dict.get nm (DirectoryNode.children d) = None ->
      DirectoryNode.mutate_file nm fn (d, ck) = ((d, ck), Raise FileNotFoundError))
  /\ (forall w path parts cur dn ch,
        _validate_and_split_path (unwrap_node path) = Ok parts ->
        traverse_all (slice_1_to_last parts) w = (w, Ok cur) ->
        index_last parts = Some nm ->
        get_at (root w) cur = Some (DirN dn ch) ->
        (Dict.get nm ch = None \/ exists cn cch, Dict.get nm ch = Some (DirN cn cch)) ->
        FileSystem.mutate path fn w = (w, Raise FileNotFoundError)).
Proof.
  split; [|split].
  - intros Hnm f0 Hget. cbv zeta.
    split; [|split; [apply dict_get_set_same | reflexivity]].
    unfold DirectoryNode.mutate_file.
    destruct (String.eqb nm "") eqn:E; [apply String.eqb_eq in E; contradiction|].
    unfold bind, DirectoryNode.self, Dict.mem; simpl. rewrite Hget. reflexivity.
  - intros [-> | Habs]; unfold DirectoryNode.mutate_file.
    + reflexivity.
    + destruct (String.eqb nm ""); [reflexivity|].
      unfold bind, DirectoryNode.self, Dict.mem; simpl. rewrite Habs. reflexivity.
  - intros w path parts cur dn ch Hv Htr Hlast Hcur Hchild.
    unfold FileSystem.mutate, bind at 1, lift. rewrite Hv.
    unfold bind at 1. rewrite Htr.
    unfold bind, last_part. rewrite Hlast. unfold ret, children_at, bind, node_at.
    rewrite Hcur. unfold ret.
    destruct Hchild as [-> | [cn [cch ->]]]; reflexivity.
Qed.

(** C8 at the store of the test suite: [file1.txt] in [/dir1] is replaced
    and stamped; a missing name fails. *)
Lemma C8_witness :
  let d := DirectoryNode.mk "dir1" [("file1.txt", FileN Scenario.file1)] in
  let fn := FileSystem.set_size Scenario.file1 7 in
  (exists d' ck' fn',
     DirectoryNode.mutate_file "file1.txt" fn (d, Scenario.ck0) = ((d', ck'), Ok fn')
     /\ FileNode.modified_at fn' = 1000 /\ FileNode.size fn' = 7)
  /\ DirectoryNode.mutate_file "nope" fn (d, Scenario.ck0)
     = ((d, Scenario.ck0), Raise FileNotFoundError)
  /\ FileSystem.mutate (PStr "/dir1") fn Scenario.w_file1
     = (Scenario.w_file1, Raise FileNotFoundError).
Proof.
  cbv zeta.
  pose proof (C8_mutate_file_replaces_or_fails
                (DirectoryNode.mk "dir1" [("file1.txt", FileN Scenario.file1)])
                Scenario.ck0 "file1.txt" (FileSystem.set_size Scenario.file1 7))
    as [Hrep _].
  pose proof (C8_mutate_file_replaces_or_fails
                (DirectoryNode.mk "dir1" [("file1.txt", FileN Scenario.file1)])
                Scenario.ck0 "nope" (FileSystem.set_size Scenario.file1 7))
    as [_ [Hfail _]].
  pose proof (C8_mutate_file_replaces_or_fails
                (DirectoryNode.mk "dir1" [("file1.txt", FileN Scenario.file1)])
                Scenario.ck0 "dir1" (FileSystem.set_size Scenario.file1 7))
    as [_ [_ Hfs]].
  split; [|split].
  - destruct (Hrep ltac:(discriminate) Scenario.file1 eq_refl) as [Heq [_ Hm]].
    do 3 eexists. split; [exact Heq|]. split; reflexivity.
  - apply Hfail. right. reflexivity.
  - apply (Hfs Scenario.w_file1 (PStr "/dir1") ["/"; "dir1"] []
               "/" [("dir1", DirN "dir1" [("file1.txt", FileN Scenario.file1)])]).
    + reflexivity.
    + vm_compute. reflexivity.
    + reflexivity.
    + vm_compute. reflexivity.
    + right. do 2 eexists. reflexivity.
Defined.

(** ** Relative paths *)


Lemma relative_rejected a :
  relative a -> _validate_and_split_path a = Raise ValueError.
Proof.
  intros [p [Hp Habs]]. unfold _validate_and_split_path. rewrite Hp, Habs. reflexivity.
Qed.

Lemma relative_unwrap a : relative a -> unwrap_node a = a.
Proof. intros [p [Hp _]]. destruct a; simpl in *; [reflexivity|reflexivity|discriminate]. Qed.

Ltac reject_relative H :=
  unfold bind, lift; rewrite (relative_rejected _ H); reflexivity.

(** C10: every method of [FileSystem] that takes a path raises
    [ValueError] on a relative path and leaves the store (tree, blobs,
    clock and snapshots) as it was; validation fails on nothing but a
    relative path once the argument is a path. *)
Theorem C10_relative_path_rejected
    (w : World) (a : path_arg) (node : FileNode.t) (onode : option FileNode.t)
    (content new_name : string) (data : bytes) :
  relative a ->
  FileSystem.open a onode w = (w, Raise ValueError)
  /\ FileSystem.mutate a node w = (w, Raise ValueError)
  /\ FileSystem.delete a w = (w, Raise ValueError)
  /\ FileSystem.create_file a content w = (w, Raise ValueError)
  /\ FileSystem.create_directory a w = (w, Raise ValueError)
  /\ FileSystem.delete_directory a w = (w, Raise ValueError)
  /\ FileSystem.delete_file a w = (w, Raise ValueError)
  /\ FileSystem.rename_directory a new_name w = (w, Raise ValueError)
  /\ FileSystem.rename_file a new_name w = (w, Raise ValueError)
  /\ FileSystem.get_file_node a w = (w, Raise ValueError)
  /\ FileSystem.get_file a w = (w, Raise ValueError)
  /\ FileSystem.save_file a data w = (w, Raise ValueError)
  /\ (forall p, to_Path a = Ok p ->
      (_validate_and_split_path a = Raise ValueError <-> Path.is_absolute p = false)).
Proof.
  intros H.
  repeat match goal with |- _ /\ _ => split end.
  - unfold FileSystem.open. reject_relative H.
  - unfold FileSystem.mutate. rewrite (relative_unwrap _ H). reject_relative H.
  - unfold FileSystem.delete. rewrite (relative_unwrap _ H). reject_relative H.
  - unfold FileSystem.create_file. reject_relative H.
  - unfold FileSystem.create_directory. reject_relative H.
  - unfold FileSystem.delete_directory. reject_relative H.
  - unfold FileSystem.delete_file. reject_relative H.
  - unfold FileSystem.rename_directory. reject_relative H.
  - unfold FileSystem.rename_file. reject_relative H.
  - unfold FileSystem.get_file_node. reject_relative H.
  - unfold FileSystem.get_file. reject_relative H.
  - unfold FileSystem.save_file. reject_relative H.
  - intros p Hp. unfold _validate_and_split_path. rewrite Hp.
    destruct (Path.is_absolute p); simpl; split; intros; congruence.
Qed.

(** C10 on the relative path [rel/f.txt] and the store of the test suite. *)
Lemma C10_witness :
  FileSystem.open (PStr "rel/f.txt") None Scenario.w_file1
  = (Scenario.w_file1, Raise ValueError).
Proof.
  refine (proj1 (C10_relative_path_rejected Scenario.w_file1 (PStr "rel/f.txt")
                   Scenario.file1 None "" "" [] _)).
  exists (Path.of_str "rel/f.txt"). split; reflexivity.
Defined.

(** A node passed to [mutate] or [delete] stands for its path, and a
    relative one is rejected in the same way. *)
Lemma relative_node_rejected w f node :
  Path.is_absolute (FileNode.file_path f) = false ->
  FileSystem.mutate (PNode f) node w = (w, Raise ValueError)
  /\ FileSystem.delete (PNode f) w = (w, Raise ValueError).
Proof.
  intros H.
  assert (Hr : relative (PPath (FileNode.file_path f))) by (eexists; split; [reflexivity|exact H]).
  split.
  - unfold FileSystem.mutate; simpl unwrap_node. reject_relative Hr.
  - unfold FileSystem.delete; simpl unwrap_node. reject_relative Hr.
Qed.

(** ** Snapshots *)

(** Whatever size, id and timestamps a file document carries, the entry
    rebuilt from it has size 0, the id derived from its name and path, and
    the two clock readings of the moment it is loaded. *)
Lemma deserialize_file nm sz p id cr mo c :
  _deserialize (DFile nm sz p id cr mo) c
  = (FileN (FileNode.mk nm (Path.of_str p) (FileNode.hash_id nm (Path.of_str p)) 0
                        (oracle c (calls c)) (oracle c (S (calls c)))),
     mkClock (S (S (calls c))) (oracle c)).
Proof. reflexivity. Qed.

(** C5 (the code departs from the claim): the store holds
    [/dir1/file1.txt] with size 1, created at 1000 and modified at 1001; the
    snapshot written by [save] records exactly that; after [load] of the
    snapshot the entry has the same name, path and id but size 0 and the
    timestamps 1002 and 1003 of the load. *)
Theorem C5_load_resets_size_and_timestamps :
  let w := Scenario.w_file1 in
  let w' := Scenario.after (do! save "persist" in load "persist") w in
  let id := FileNode.file_id Scenario.file1 in
  Scenario.entry w ["dir1"; "file1.txt"] = Some (FileN Scenario.file1)
  /\ FileNode.size Scenario.file1 = 1
  /\ FileNode.created_at Scenario.file1 = 1000
  /\ FileNode.modified_at Scenario.file1 = 1001
  /\ disk w' !! "persist"
     = Some (DDir "/" [("dir1", DDir "dir1"
                          [("file1.txt",
                            DFile "file1.txt" 1 "/dir1/file1.txt" id 1000 1001)])])
  /\ Scenario.entry w' ["dir1"; "file1.txt"]
     = Some (FileN (FileNode.mk "file1.txt" (Path.of_str "/dir1/file1.txt") id 0 1002 1003)).
Proof.
  cbv zeta.
  split; [vm_compute; reflexivity|].
  split; [reflexivity|]. split; [reflexivity|]. split; [reflexivity|].
  split; vm_compute; reflexivity.
Qed.

(** ** Renaming a directory *)

(** C7 (the code departs from the claim). In the store with
    [/dir1/file1.txt] (content ["X"]), [rename_directory('/dir1', 'dir3')]
    rewrites the path of the file to [/dir3/file1.txt] and leaves its
    [file_id] the one derived from the old path; the tree method returns
    the pair of the old id and of the id computed from the new path, the
    store drops it, no blob is renamed and none exists under the new id;
    [get_file('/dir3/file1.txt')] returns ["X"] through the old id. With a
    subdirectory inside ([/dir1/sub/g.txt]) the call raises [TypeError]
    after renaming the directory and rewriting [file1.txt] only. *)
Theorem C7_rename_directory_keeps_ids_and_blobs :
  let w := Scenario.w_file1 in
  let old_id := FileNode.hash_id "file1.txt" (Path.of_str "/dir1/file1.txt") in
  let new_id := FileNode.hash_id "file1.txt" (Path.of_str "/dir3/file1.txt") in
  let moved := FileNode.mk "file1.txt" (Path.of_str "/dir3/file1.txt") old_id 1 1000 1001 in
  let w' := Scenario.after (rename_directory (PStr "/dir1") "dir3") w in
  Scenario.outcome (rename_directory (PStr "/dir1") "dir3") w = Ok tt
  /\ snd (DirectoryNode.rename_directory "dir1" "dir3"
            (DirectoryNode.mk "/" [("dir1", DirN "dir1" [("file1.txt", FileN Scenario.file1)])],
             Scenario.ck0))
     = Ok [(old_id, new_id)]
  /\ old_id <> new_id
  /\ Scenario.entry w' ["dir3"; "file1.txt"] = Some (FileN moved)
  /\ ~ id_invariant moved
  /\ blobs w' = blobs w
  /\ blobs w' !! new_id = None
  /\ Scenario.outcome (get_file (PStr "/dir3/file1.txt")) w' = Ok (encode "X")
  /\ (let wn := Scenario.after (rename_directory (PStr "/dir1") "dir3") Scenario.w_nested in
      Scenario.outcome (rename_directory (PStr "/dir1") "dir3") Scenario.w_nested
        = Raise TypeError
      /\ Scenario.entry wn ["dir3"; "file1.txt"] = Some (FileN moved)
      /\ exists g, Scenario.entry wn ["dir3"; "sub"; "g.txt"] = Some (FileN g)
                   /\ FileNode.file_path g = Path.of_str "/dir1/sub/g.txt").
Proof.
  cbv zeta.
  split; [vm_compute; reflexivity|].
  split; [vm_compute; reflexivity|].
  split; [vm_compute; discriminate|].
  split; [vm_compute; reflexivity|].
  split; [unfold id_invariant; vm_compute; discriminate|].
  split; [vm_compute; reflexivity|].
  split; [vm_compute; reflexivity|].
  split; [vm_compute; reflexivity|].
  split; [vm_compute; reflexivity|].
  split; [vm_compute; reflexivity|].
  eexists. split; vm_compute; reflexivity.
Qed.

(** ** The commit on close *)

Lemma save_file_written p data w w1 n :
  save_file p data w = (w1, Ok n) -> n = Z.of_nat (length data).
Proof.
  cbv [save_file bind lift dir_at node_at blob_write get_blobs set_blobs ret raise get_at].
  destruct (_validate_and_split_path p) as [parts|e]; [|discriminate].
  destruct (root w) as [f|nm ch]; [discriminate|].
  destruct (DirectoryNode.get_file (DirectoryNode.mk nm ch) parts) as [f|e]; [|discriminate].
  now intros [= _ <-].
Qed.

Lemma on_dir_blobs {A} c (m : M DirectoryNode.St A) w :
  blobs (fst (on_dir c m w)) = blobs w.
Proof.
  unfold on_dir.
  destruct (get_at (root w) c) as [[f|nm ch]|]; try reflexivity.
  destruct (m _) as [[d' ck'] r]. reflexivity.
Qed.

(** [mutate] never touches a blob, whether it succeeds or raises. *)
Lemma mutate_blobs p n w : blobs (fst (mutate p n w)) = blobs w.
Proof.
  unfold mutate, bind at 1, lift.
  destruct (_validate_and_split_path (unwrap_node p)) as [parts|e]; [|reflexivity].
  unfold bind at 1.
  pose proof (traverse_all_pure (slice_1_to_last parts) [] w) as Hp.
  unfold traverse_all.
  destruct (for_each (slice_1_to_last parts) [] _traverse_directory w) as [w1 [cur|e]];
    simpl in Hp; subst w1; [|reflexivity].
  unfold bind at 1, last_part.
  destruct (index_last parts) as [nm|]; [|reflexivity].
  unfold ret at 1. unfold bind at 1, children_at, bind at 1, node_at.
  destruct (get_at (root w) cur) as [[f|dn ch]|]; try reflexivity.
  unfold ret at 1.
  destruct (Dict.get nm ch) as [[f|? ?]|]; try reflexivity.
  unfold bind, now. simpl. rewrite on_dir_blobs. reflexivity.
Qed.

(** C2, counterexample: the client holds [/dir1/file1.txt] open with the
    two bytes ["XY"] in its scratch file; on [close] the server is made to
    call [save_file] first and [mutate] second, not [mutate] then
    [save_file]. *)
Lemma C2_counterexample :
  let node := FileSystem.set_size Scenario.file1 2 in
  let data := encode "XY" in
  let p := PPath (Path.of_str "/dir1/file1.txt") in
  let c := NFSClient.mk (Some node) (Some "/dir1/file1.txt") (Some data) [] in
  let srv := NFSServer.mk Scenario.w_file1 [] in
  let srv' := snd (fst (NFSClient.handle_close (c, srv))) in
  snd (NFSClient.handle_close (c, srv)) = Ok tt
  /\ NFSServer.fs_calls srv'
     = [NFSServer.CallSaveFile p data; NFSServer.CallMutate p node]
  /\ NFSServer.fs_calls srv'
     <> [NFSServer.CallMutate p node; NFSServer.CallSaveFile p data].
Proof.
  cbv zeta.
  split; [vm_compute; reflexivity|].
  split; [vm_compute; reflexivity|].
  vm_compute. discriminate.
Qed.

(** C2, as amended: on [close], with a file open and the scratch file of
    the size recorded in its node, the client releases the lock, sends the
    write request and, if that was answered OK, the close request; the
    server performs [save_file(path, buffer)] first and, when it succeeded,
    [mutate(path, metadata)] second, on the store as [save_file] left it.
    The two steps are independent: whatever [mutate] does, the blobs stay
    as [save_file] wrote them. *)
Theorem C2_close_saves_then_mutates
    (node : FileNode.t) (lock : string) (data : bytes)
    (ev : list NFSClient.Event) (srv : NFSServer.t) :
  FileNode.size node = Z.of_nat (length data) ->
  let c := NFSClient.mk (Some node) (Some lock) (Some data) ev in
  let n := pickle_node node in
  let p := PPath (FileNode.file_path n) in
  let saved := save_file p data (NFSServer.fs srv) in
  let st' := fst (NFSClient.handle_close (c, srv)) in
  match snd saved with
  | Ok _ =>
      NFSServer.fs (snd st') = fst (mutate p n (fst saved))
      /\ NFSServer.fs_calls (snd st')
         = (NFSServer.fs_calls srv
            ++ [NFSServer.CallSaveFile p data; NFSServer.CallMutate p n])%list
      /\ NFSClient.events (fst st')
         = (ev ++ [NFSClient.Released lock; NFSClient.Sent (WriteRequest node data);
                   NFSClient.Sent (CloseRequest node)])%list
  | Raise _ =>
      NFSServer.fs (snd st') = fst saved
      /\ NFSServer.fs_calls (snd st')
         = (NFSServer.fs_calls srv ++ [NFSServer.CallSaveFile p data])%list
      /\ NFSClient.events (fst st')
         = (ev ++ [NFSClient.Released lock; NFSClient.Sent (WriteRequest node data)])%list
  end
  /\ blobs (NFSServer.fs (snd st')) = blobs (fst saved).
Proof.
  intros Hsize. cbv zeta.
  assert (E : (FileNode.size node =? Z.of_nat (length data)) = true)
    by (apply Z.eqb_eq; exact Hsize).
  assert (E' : (Z.of_nat (length data) =? FileNode.size (pickle_node node)) = true)
    by (apply Z.eqb_eq; symmetry; exact Hsize).
  set (n := pickle_node node) in *.
  set (p := PPath (FileNode.file_path n)).
  cbv [NFSClient.handle_close NFSClient.unlock NFSClient.zk_unlock
       NFSClient.client NFSClient.set_client NFSClient.websocket_comm
       NFSClient.decode_OK NFSClient.has_file_open bind ret raise
       fst snd NFSClient.current_file_node NFSClient.current_zk_lock
       NFSClient.temp_file NFSClient.events negb orb
       NFSServer.handle_nfs NFSServer.call].
  rewrite E. fold n. fold p.
  destruct (save_file p data (NFSServer.fs srv)) as [w1 [written|e]] eqn:Hsave.
  - apply save_file_written in Hsave. subst written. rewrite E'.
    cbv [NFSServer.fs NFSServer.fs_calls].
    pose proof (mutate_blobs p n w1) as Hb.
    destruct (mutate p n w1) as [w2 [m|e]]; cbn [fst] in Hb;
      cbv [NFSServer.fs NFSServer.fs_calls NFSClient.events];
      rewrite <- !app_assoc; auto.
  - cbv [NFSServer.fs NFSServer.fs_calls NFSClient.events].
    rewrite <- !app_assoc; auto.
Qed.

(** The two steps do not form a transaction: in the store that holds
    [/a/a/f], [save_file] finds the file by its keys and [mutate], whose
    traversal stays on a directory that bears the name of the next part,
    does not. On [close] the blob is overwritten, the tree keeps the old
    entry and the client, answered not OK, keeps its scratch file. *)
Example close_is_not_atomic :
  let node := FileNode.mk "f" (Path.of_str "/a/a/f")
                (FileNode.hash_id "f" (Path.of_str "/b/a/f")) 3 1000 1001 in
  let c := NFSClient.mk (Some node) (Some "/a/a/f") (Some (encode "new")) [] in
  let srv := NFSServer.mk Scenario.w_aa [] in
  let st' := fst (NFSClient.handle_close (c, srv)) in
  blobs Scenario.w_aa !! FileNode.file_id node = Some (encode "old")
  /\ blobs (NFSServer.fs (snd st')) !! FileNode.file_id node = Some (encode "new")
  /\ root (NFSServer.fs (snd st')) = root Scenario.w_aa
  /\ NFSClient.temp_file (fst st') = Some (encode "new")
  /\ NFSClient.current_zk_lock (fst st') = None.
Proof. cbv zeta. repeat split; vm_compute; reflexivity. Qed.

(** C2 on the client and server of the counterexample. *)
Lemma C2_witness :
  let node := FileSystem.set_size Scenario.file1 2 in
  let p := PPath (Path.of_str "/dir1/file1.txt") in
  let c := NFSClient.mk (Some node) (Some "/dir1/file1.txt") (Some (encode "XY")) [] in
  let srv := NFSServer.mk Scenario.w_file1 [] in
  blobs (NFSServer.fs (snd (fst (NFSClient.handle_close (c, srv)))))
  = blobs (fst (save_file p (encode "XY") Scenario.w_file1)).
Proof.
  cbv zeta.
  exact (proj2 (C2_close_saves_then_mutates
                  (FileSystem.set_size Scenario.file1 2) "/dir1/file1.txt"
                  (encode "XY") [] (NFSServer.mk Scenario.w_file1 []) eq_refl)).
Defined.

(** ** Paths as strings *)




Lemma str_app_nil (b : string) : "" ++ b = b.
Proof. reflexivity. Qed.

Lemma str_app_cons c (a b : string) : String c a ++ b = String c (a ++ b).
Proof. reflexivity. Qed.

Lemma str_app_nil_r (a : string) : a ++ "" = a.
Proof. induction a as [|x a IH]; [reflexivity|]. now rewrite str_app_cons, IH. Qed.

Lemma str_app_assoc (a b c : string) : (a ++ b) ++ c = a ++ (b ++ c).
Proof.
  induction a as [|x a IH]; [reflexivity|].
  now rewrite !str_app_cons, IH.
Qed.

Lemma split_no_slash s : Forall (fun x => no_slash x = true) (Path.split s).
Proof.
  induction s as [|c s IH]; simpl.
  - repeat constructor.
  - destruct (Ascii.eqb c Path.slash) eqn:E.
    + constructor; [reflexivity|exact IH].
    + destruct (Path.split s) as [|x xs].
      * repeat constructor. simpl. now rewrite E.
      * inversion IH; subst. constructor; [|assumption].
        simpl. rewrite E. assumption.
Qed.

Lemma split_single x : no_slash x = true -> Path.split x = [x].
Proof.
  induction x as [|c x IH]; simpl; [reflexivity|].
  intros H. apply andb_true_iff in H as [Hc Hx].
  apply negb_true_iff in Hc. rewrite Hc, (IH Hx). reflexivity.
Qed.

Lemma split_app_slash x s :
  no_slash x = true -> Path.split (x ++ String Path.slash s) = x :: Path.split s.
Proof.
  induction x as [|c x IH].
  - intros _. reflexivity.
  - intros H. simpl in H. apply andb_true_iff in H as [Hc Hx].
    apply negb_true_iff in Hc. rewrite str_app_cons. simpl.
    rewrite Hc, (IH Hx). reflexivity.
Qed.

Lemma split_join l :
  l <> [] -> Forall (fun x => no_slash x = true) l ->
  Path.split (Path.join_slash l) = l.
Proof.
  induction l as [|x l IH]; [contradiction|].
  intros _ Hall. inversion Hall as [|? ? Hx Hl]; subst.
  destruct l as [|y l].
  - simpl. now apply split_single.
  - change (Path.join_slash (x :: y :: l))
      with (x ++ String Path.slash (Path.join_slash (y :: l))).
    rewrite split_app_slash by assumption.
    rewrite IH; [reflexivity|discriminate|assumption].
Qed.

Lemma filter_components l :
  Forall component l -> List.filter Path.keep_component l = l.
Proof.
  induction 1 as [|x l [Hk _] _ IH]; simpl; [reflexivity|].
  now rewrite Hk, IH.
Qed.

Lemma component_head x :
  component x -> exists c x', x = String c x' /\ Ascii.eqb c Path.slash = false.
Proof.
  intros [Hk Hs]. destruct x as [|c x']; [discriminate|].
  exists c, x'. split; [reflexivity|].
  simpl in Hs. apply andb_true_iff in Hs as [Hc _]. now apply negb_true_iff in Hc.
Qed.

(** Parsing the text of an absolute path gives back its components. *)
Lemma of_str_join l :
  l <> [] -> Forall component l ->
  Path.of_str ("/" ++ Path.join_slash l) = Path.mk "/" l.
Proof.
  intros Hne Hall.
  assert (Hns : Forall (fun x => no_slash x = true) l)
    by (eapply Forall_impl; [exact Hall|]; intros ? [_ ?]; assumption).
  destruct l as [|x l]; [contradiction|].
  inversion Hall as [|? ? Hx Hl]; subst.
  destruct (component_head _ Hx) as [c [x' [-> Hc]]].
  assert (Hj : exists rest, Path.join_slash (String c x' :: l) = String c rest).
  { destruct l; simpl; [eauto|]. rewrite str_app_cons. eauto. }
  destruct Hj as [rest Hj].
  unfold Path.of_str.
  change ("/" ++ Path.join_slash (String c x' :: l))
    with (String Path.slash (Path.join_slash (String c x' :: l))).
  assert (Hsr : Path.splitroot (String Path.slash (Path.join_slash (String c x' :: l)))
                = ("/", Path.join_slash (String c x' :: l))).
  { rewrite Hj. unfold Path.splitroot. rewrite Ascii.eqb_refl, Hc. reflexivity. }
  rewrite Hsr. rewrite split_join by (assumption || discriminate).
  now rewrite filter_components.
Qed.

Lemma t_path_fold l : forall acc,
  fold_left (fun acc part => acc ++ "/" ++ part) l acc
  = acc ++ fold_right (fun part rest => "/" ++ part ++ rest) "" l.
Proof.
  induction l as [|x l IH]; intros acc; simpl.
  - now rewrite str_app_nil_r.
  - rewrite IH. now rewrite !str_app_assoc.
Qed.

Lemma slashes_join l :
  l <> [] ->
  fold_right (fun part rest => "/" ++ part ++ rest) "" l = "/" ++ Path.join_slash l.
Proof.
  induction l as [|x l IH]; [contradiction|]. intros _.
  destruct l as [|y l].
  - cbn [fold_right Path.join_slash]. now rewrite str_app_nil_r.
  - change (Path.join_slash (x :: y :: l)) with (x ++ "/" ++ Path.join_slash (y :: l)).
    cbn [fold_right] in *. rewrite IH by discriminate. reflexivity.
Qed.

Lemma t_path_join l :
  l <> [] -> t_path_of l = "/" ++ Path.join_slash l.
Proof.
  intros Hne. unfold t_path_of. rewrite t_path_fold, str_app_nil.
  now apply slashes_join.
Qed.

Lemma t_path_snoc l s : t_path_of (l ++ [s])%list = t_path_of l ++ "/" ++ s.
Proof. unfold t_path_of. now rewrite fold_left_app. Qed.

Lemma filter_nonempty l :
  Forall component l ->
  List.filter (fun part => negb (String.eqb part "")) l = l.
Proof.
  induction 1 as [|x l [Hk _] _ IH]; simpl; [reflexivity|].
  unfold Path.keep_component in Hk. apply andb_true_iff in Hk as [Hk _].
  now rewrite Hk, IH.
Qed.

(** The text built by the loop of [open] validates to the root and the
    parts gone through. *)
Lemma validate_t_path l :
  l <> [] -> Forall component l ->
  _validate_and_split_path (PStr (Path.as_posix (Path.of_str (t_path_of l))))
  = Ok ("/" :: l).
Proof.
  intros Hne Hall.
  rewrite t_path_join by assumption. rewrite of_str_join by assumption.
  unfold Path.as_posix, Path.str. cbn [Path.root Path.tail].
  change (String.eqb "/" "") with false. cbv iota.
  unfold _validate_and_split_path, to_Path. rewrite of_str_join by assumption.
  unfold Path.is_absolute, Path.parts. cbn [Path.root Path.tail].
  change (String.eqb "/" "") with false. cbn [negb].
  cbn [List.filter]. change (negb (String.eqb "/" "")) with true. cbv iota.
  now rewrite filter_nonempty.
Qed.

(** The components of a parsed string are components. *)
Lemma of_str_components s : Forall component (Path.tail (Path.of_str s)).
Proof.
  unfold Path.of_str. destruct (Path.splitroot s) as [r rel]. cbn [Path.tail].
  pose proof (split_no_slash rel) as Hns.
  induction Hns as [|x l Hx _ IH]; simpl; [constructor|].
  destruct (Path.keep_component x) eqn:Hk; [|exact IH].
  constructor; [split; assumption|exact IH].
Qed.

(** What validation returns for a string: its root, which is not empty,
    and its components. *)
Lemma validate_str s parts :
  _validate_and_split_path (PStr s) = Ok parts ->
  exists r, parts = r :: Path.tail (Path.of_str s)
            /\ Path.root (Path.of_str s) = r /\ r <> "".
Proof.
  unfold _validate_and_split_path, to_Path, Path.is_absolute, Path.parts.
  destruct (String.eqb (Path.root (Path.of_str s)) "") eqn:E; [discriminate|].
  cbn [negb]. intros [= <-]. exists (Path.root (Path.of_str s)).
  cbn [List.filter]. rewrite E. cbn [negb].
  rewrite filter_nonempty by apply of_str_components.
  split; [reflexivity|]. split; [reflexivity|]. now apply String.eqb_neq.
Qed.

(** ** Walking the tree *)


Lemma chain_is_dir segs : forall n, chain n segs -> is_dir n = true.
Proof. destruct segs; intros [f|nm ch]; simpl; tauto. Qed.

Lemma chain_get segs : forall n,
  chain n segs -> exists nm ch, get_at n segs = Some (DirN nm ch).
Proof.
  induction segs as [|s rest IH]; intros n; simpl.
  - destruct n as [f|nm ch]; [discriminate|]. eauto.
  - destruct n as [f|nm ch]; [tauto|]. intros [_ H].
    destruct (Dict.get s ch) as [m|]; [|tauto]. now apply IH.
Qed.

Lemma chain_app a : forall n b m,
  chain n a -> get_at n a = Some m -> chain m b -> chain n (a ++ b)%list.
Proof.
  induction a as [|s a IH]; intros n b m; simpl.
  - now intros _ [= ->].
  - destruct n as [f|nm ch]; [tauto|]. intros [Hne H].
    destruct (Dict.get s ch) as [x|]; [|tauto].
    intros Hg Hb. split; [assumption|]. eapply IH; eauto.
Qed.

Lemma chain_prefix a : forall n b, chain n (a ++ b)%list -> chain n a.
Proof.
  induction a as [|s a IH]; intros n b; simpl.
  - apply chain_is_dir.
  - destruct n as [f|nm ch]; [tauto|]. intros [Hne H]. split; [assumption|].
    destruct (Dict.get s ch) as [x|]; [|tauto]. eapply IH; eauto.
Qed.

(** Replacing the directory at the end of a chain by a directory keeps
    the chain. *)
Lemma chain_set_at segs : forall n nm ch nm' ch',
  chain n segs -> get_at n segs = Some (DirN nm ch) ->
  chain (set_at n segs (DirN nm' ch')) segs.
Proof.
  induction segs as [|s rest IH]; intros n nm ch nm' ch'; simpl.
  - reflexivity.
  - destruct n as [f|a cha]; [tauto|]. intros [Hne H].
    destruct (Dict.get s cha) as [m|] eqn:E; [|tauto].
    intros Hg. simpl. split; [assumption|].
    rewrite dict_get_set_same. eapply IH; eauto.
Qed.

Lemma set_at_keeps_root c r v :
  is_dir r = true -> c <> [] ->
  is_dir (set_at r c v) = true /\ node_name (set_at r c v) = node_name r.
Proof.
  intros Hd Hc. destruct c as [|k c]; [contradiction|].
  destruct r as [f|a cha]; [discriminate|]. simpl.
  destruct (Dict.get k cha); simpl; auto.
Qed.

(** Along a chain the traversal of the store goes down one key at a time. *)
Lemma chain_traverse segs : forall pre w n,
  get_at (root w) pre = Some n -> chain n segs ->
  for_each segs pre _traverse_directory w = (w, Ok (pre ++ segs)%list).
Proof.
  induction segs as [|s rest IH]; intros pre w n Hg Hc; simpl.
  - unfold ret. now rewrite app_nil_r.
  - simpl in Hc. destruct n as [f|nm ch]; [tauto|]. destruct Hc as [Hne Hc].
    destruct (Dict.get s ch) as [m|] eqn:E; [|tauto].
    unfold bind at 1. unfold _traverse_directory at 1, bind, node_at. rewrite Hg.
    unfold ret at 1. cbn [node_name].
    destruct (String.eqb nm s) eqn:En; [apply String.eqb_eq in En; contradiction|].
    rewrite E. pose proof (chain_is_dir _ _ Hc) as Hd.
    destruct m as [f|a b]; [discriminate|]. unfold ret at 1.
    rewrite (IH (pre ++ [s])%list w (DirN a b)).
    + now rewrite <- app_assoc.
    + rewrite get_at_app, Hg. simpl. now rewrite E.
    + assumption.
Qed.

(** ** [open] *)



Lemma admissible_is_dir segs n : admissible n segs = true -> is_dir n = true.
Proof. destruct segs; destruct n; simpl; auto; discriminate. Qed.

Lemma no_repeat_admissible s rest :
  no_repeat s rest = true -> admissible (DirN s []) rest = true.
Proof. destruct rest; simpl; auto. Qed.


Lemma open_step_existing w pre tp nm ch s a b :
  get_at (root w) pre = Some (DirN nm ch) -> nm <> s ->
  Dict.get s ch = Some (DirN a b) ->
  open_step (pre, tp) s w = (w, Ok ((pre ++ [s])%list, tp ++ "/" ++ s)).
Proof.
  intros Hg Hne Hs.
  unfold open_step, bind, try_except, _traverse_directory, bind, node_at. cbn [fst snd].
  rewrite Hg. unfold ret. cbn [node_name].
  destruct (String.eqb nm s) eqn:En; [apply String.eqb_eq in En; contradiction|].
  now rewrite Hs.
Qed.

Lemma removelast_snoc {A} (l : list A) x : removelast (l ++ [x]) = l.
Proof. apply removelast_last. Qed.

Lemma index_last_snoc {A} (l : list A) x : index_last (l ++ [x]) = Some x.
Proof.
  destruct l as [|y l]; [reflexivity|]. simpl. f_equal. apply List.last_last.
Qed.

Lemma open_step_missing w pre nm ch s :
  is_dir (root w) = true -> node_name (root w) = "/" ->
  chain (root w) pre -> get_at (root w) pre = Some (DirN nm ch) ->
  nm <> s -> Dict.get s ch = None ->
  Forall component (pre ++ [s])%list ->
  open_step (pre, t_path_of pre) s w
  = (mkWorld (set_at (root w) pre (DirN nm (Dict.set s (DirN s []) ch)))
             (blobs w) (clock w) (disk w),
     Ok ((pre ++ [s])%list, t_path_of (pre ++ [s])%list)).
Proof.
  intros Hrd Hrn Hc Hg Hne Hs Hcomp.
  unfold open_step. cbn [fst snd]. rewrite <- t_path_snoc.
  unfold bind at 1, try_except.
  assert (Htr : _traverse_directory pre s w = (w, Raise FileNotFoundError)).
  { unfold _traverse_directory, bind, node_at. rewrite Hg. unfold ret. cbn [node_name].
    destruct (String.eqb nm s) eqn:En; [apply String.eqb_eq in En; contradiction|].
    now rewrite Hs. }
  rewrite Htr.
  destruct (decide (FileNotFoundError = FileNotFoundError)) as [_|?]; [|contradiction].
  unfold create_directory, bind at 1, lift.
  rewrite validate_t_path by (assumption || (destruct pre; discriminate)).
  unfold bind at 1, traverse_all.
  change (slice_to_last ("/" :: (pre ++ [s])%list)) with (removelast ("/" :: (pre ++ [s])%list)).
  change ("/" :: (pre ++ [s])%list) with (("/" :: pre) ++ [s])%list.
  rewrite removelast_snoc.
  assert (Hwalk : for_each ("/" :: pre) [] _traverse_directory w = (w, Ok pre)).
  { cbn [for_each]. unfold bind at 1. unfold _traverse_directory at 1, bind, node_at.
    cbn [get_at]. unfold ret at 1. rewrite Hrn, String.eqb_refl.
    rewrite (chain_traverse pre [] w (root w)); [reflexivity|reflexivity|assumption]. }
  rewrite Hwalk.
  unfold bind at 1, last_part. rewrite index_last_snoc. unfold ret at 1.
  unfold bind at 1, on_dir. rewrite Hg.
  unfold DirectoryNode.create_directory, bind, DirectoryNode.self, Dict.mem.
  cbn [fst snd DirectoryNode.children DirectoryNode.name]. rewrite Hs. cbn [negb].
  reflexivity.
Qed.

(** The loop of [open] over the intermediate parts: it ends on the
    directory the parts lead to, having created the missing ones; blobs,
    clock and snapshots are untouched; when every part already led
    somewhere the store is unchanged, otherwise the loop ends on an empty
    directory it created. *)
Lemma open_loop post : forall pre w n,
  is_dir (root w) = true -> node_name (root w) = "/" ->
  chain (root w) pre -> get_at (root w) pre = Some n ->
  admissible n post = true ->
  Forall component (pre ++ post)%list ->
  exists w',
    for_each post (pre, t_path_of pre) open_step w
    = (w', Ok ((pre ++ post)%list, t_path_of (pre ++ post)%list))
    /\ is_dir (root w') = true /\ node_name (root w') = "/"
    /\ chain (root w') (pre ++ post)%list
    /\ blobs w' = blobs w /\ clock w' = clock w /\ disk w' = disk w
    /\ match get_at n post with
       | Some _ => w' = w
       | None => exists l, get_at (root w') (pre ++ post)%list = Some (DirN l [])
       end.
Proof.
  induction post as [|s rest IH]; intros pre w n Hrd Hrn Hc Hg Hadm Hcomp.
  - exists w. cbn [for_each get_at]. unfold ret. rewrite !app_nil_r. repeat split; auto.
  - cbn [admissible] in Hadm. destruct n as [f|nm ch]; [discriminate|].
    apply andb_true_iff in Hadm as [Hne Hadm].
    apply negb_true_iff, String.eqb_neq in Hne.
    assert (Hcomp1 : Forall component (pre ++ [s])%list).
    { replace (pre ++ s :: rest)%list with ((pre ++ [s]) ++ rest)%list in Hcomp
        by now rewrite <- app_assoc.
      apply Forall_app in Hcomp. tauto. }
    assert (Hcomp2 : Forall component ((pre ++ [s]) ++ rest)%list)
      by now rewrite <- app_assoc.
    cbn [for_each get_at]. unfold bind at 1.
    destruct (Dict.get s ch) as [m|] eqn:Es.
    + pose proof (admissible_is_dir _ _ Hadm) as Hm.
      destruct m as [f|a b]; [discriminate|].
      rewrite (open_step_existing w pre (t_path_of pre) nm ch s a b Hg Hne Es).
      rewrite <- t_path_snoc.
      destruct (IH (pre ++ [s])%list w (DirN a b)) as [w' Hw']; auto.
      * eapply chain_app; eauto. simpl. rewrite Es. simpl. auto.
      * rewrite get_at_app, Hg. simpl. now rewrite Es.
      * exists w'. rewrite <- !app_assoc in Hw'. exact Hw'.
    + rewrite (open_step_missing w pre nm ch s); auto.
      set (w1 := mkWorld (set_at (root w) pre (DirN nm (Dict.set s (DirN s []) ch)))
                         (blobs w) (clock w) (disk w)).
      assert (Hg1 : get_at (root w1) pre = Some (DirN nm (Dict.set s (DirN s []) ch)))
        by (eapply get_at_set_at; eauto).
      assert (Hroot1 : is_dir (root w1) = true /\ node_name (root w1) = "/").
      { destruct pre as [|k pre'].
        - cbn [get_at] in Hg. injection Hg as Hroot. rewrite Hroot in Hrn.
          cbn [node_name] in Hrn. unfold w1. cbn [root set_at is_dir node_name]. auto.
        - destruct (set_at_keeps_root (k :: pre') (root w)
                      (DirN nm (Dict.set s (DirN s []) ch)) Hrd ltac:(discriminate)) as [? Hn].
          unfold w1. cbn [root]. split; [assumption|]. now rewrite Hn. }
      destruct Hroot1 as [Hrd1 Hrn1].
      assert (Hc1 : chain (root w1) pre) by (eapply chain_set_at; eauto).
      destruct (IH (pre ++ [s])%list w1 (DirN s [])) as [w' Hw']; auto.
      * eapply chain_app; eauto. simpl. rewrite dict_get_set_same. simpl. auto.
      * rewrite get_at_app, Hg1. simpl. now rewrite dict_get_set_same.
      * now apply no_repeat_admissible.
      * destruct Hw' as (Hloop & ? & ? & ? & ? & ? & ? & Hend).
        exists w'. rewrite <- !app_assoc in *. cbn [app] in *.
        repeat split; auto.
        destruct rest as [|s' rest'].
        -- simpl in Hend. subst w'. exists s.
           rewrite get_at_app, Hg1. simpl. now rewrite dict_get_set_same.
        -- simpl in Hend. exact Hend.
Qed.

Lemma create_file_in_dir nm ch ck fname p :
  Dict.get fname ch = None ->
  DirectoryNode.create_file fname p (DirectoryNode.mk nm ch, ck)
  = ((DirectoryNode.mk nm
        (Dict.set fname
           (FileN (FileNode.init fname p (oracle ck (calls ck)) (oracle ck (S (calls ck)))))
           ch),
      mkClock (S (S (calls ck))) (oracle ck)),
     Ok (FileNode.init fname p (oracle ck (calls ck)) (oracle ck (S (calls ck))))).
Proof.
  intros H.
  unfold DirectoryNode.create_file, bind, DirectoryNode.self,
    DirectoryNode.now, DirectoryNode.set_children, ret, raise, Dict.mem; simpl.
  rewrite H. reflexivity.
Qed.

Lemma on_dir_run {A} c (m : M DirectoryNode.St A) w nm ch d' ck' r :
  get_at (root w) c = Some (DirN nm ch) ->
  m (DirectoryNode.mk nm ch, clock w) = ((d', ck'), r) ->
  on_dir c m w
  = (mkWorld (set_at (root w) c (DirectoryNode.to_node d')) (blobs w) ck' (disk w), r).
Proof. intros Hg Hm. unfold on_dir. now rewrite Hg, Hm. Qed.

(** [create_file] in a directory that a chain leads to and that has no
    child of that name. *)
Lemma create_file_fresh w s r segs fname nm ch :
  _validate_and_split_path (PStr s) = Ok (r :: segs ++ [fname])%list ->
  chain (root w) segs ->
  get_at (root w) segs = Some (DirN nm ch) ->
  Dict.get fname ch = None ->
  exists w' f,
    create_file (PStr s) "" w = (w', Ok f)
    /\ get_at (root w') (segs ++ [fname])%list = Some (FileN f)
    /\ chain (root w') segs
    /\ FileNode.name f = fname /\ FileNode.file_path f = Path.of_str s
    /\ id_invariant f /\ FileNode.size f = 0
    /\ FileNode.created_at f = oracle (clock w) (calls (clock w))
    /\ FileNode.modified_at f = oracle (clock w) (S (calls (clock w)))
    /\ blobs w' = <[FileNode.file_id f := []]> (blobs w).
Proof.
  intros Hv Hc Hg Hf.
  set (f := FileNode.init fname (Path.of_str s)
              (oracle (clock w) (calls (clock w)))
              (oracle (clock w) (S (calls (clock w))))).
  set (ch1 := Dict.set fname (FileN f) ch).
  set (ck1 := mkClock (S (S (calls (clock w)))) (oracle (clock w))).
  set (w1 := mkWorld (set_at (root w) segs (DirN nm ch1)) (blobs w) ck1 (disk w)).
  set (w2 := mkWorld (root w1) (<[FileNode.file_id f := []]> (blobs w1)) ck1 (disk w)).
  set (ch2 := Dict.set fname (FileN (set_size f 0)) ch1).
  set (w3 := mkWorld (set_at (root w2) segs (DirN nm ch2)) (blobs w2) ck1 (disk w)).
  assert (Hg1 : get_at (root w2) segs = Some (DirN nm ch1)) by (eapply get_at_set_at; eauto).
  assert (Hc1 : chain (root w2) segs) by (eapply chain_set_at; eauto).
  assert (S1 : on_dir segs (DirectoryNode.create_file fname (Path.of_str s)) w = (w1, Ok f)).
  { erewrite on_dir_run; [|exact Hg|apply create_file_in_dir; exact Hf]. reflexivity. }
  assert (S2 : blob_write (FileNode.file_id f) (encode "") w1 = (w2, Ok 0)) by reflexivity.
  assert (S3 : on_dir segs
                 (let! d := DirectoryNode.self in
                  DirectoryNode.set_children
                    (Dict.set fname (FileN (set_size f 0)) (DirectoryNode.children d))) w2
               = (w3, Ok tt)).
  { erewrite on_dir_run; [|exact Hg1|reflexivity]. reflexivity. }
  exists w3, (set_size f 0).
  split; [|split; [|split; [|repeat split]]].
  - unfold create_file, bind at 1, lift. rewrite Hv.
    unfold bind at 1, traverse_all.
    change (slice_1_to_last (r :: (segs ++ [fname])%list)) with (removelast (segs ++ [fname])%list).
    rewrite removelast_snoc.
    rewrite (chain_traverse segs [] w (root w)) by (reflexivity || assumption).
    cbn [app]. unfold bind at 1, lift, to_Path.
    unfold bind at 1, last_part.
    change (r :: (segs ++ [fname])%list) with ((r :: segs) ++ [fname])%list.
    rewrite index_last_snoc. unfold ret at 1.
    unfold bind at 1. rewrite S1.
    unfold bind at 1. fold f. rewrite S2.
    unfold bind at 1. rewrite S3. reflexivity.
  - unfold w3. cbn [root]. rewrite get_at_app.
    rewrite (get_at_set_at segs _ _ (DirN nm ch2) Hg1). simpl.
    unfold ch2. now rewrite dict_get_set_same.
  - unfold w3. cbn [root]. eapply chain_set_at; eauto.
Qed.

(** C6, counterexample: [open] of the relative path [new/file.txt] on the
    empty store raises [ValueError] and creates nothing; with the file
    [/dir1/file1.txt] in the way, [open('/dir1/file1.txt/x')] raises
    [FileExistsError] and creates nothing; and on a store built with
    [root_name="root"], [open('/a/f')] raises [FileNotFoundError] and
    creates nothing. *)
Lemma C6_counterexample :
  FileSystem.open (PStr "new/file.txt") None Scenario.w_empty
    = (Scenario.w_empty, Raise ValueError)
  /\ FileSystem.open (PStr "/dir1/file1.txt/x") None Scenario.w_file1
    = (Scenario.w_file1, Raise FileExistsError)
  /\ FileSystem.open (PStr "/a/f") None (FileSystem.init "root" Scenario.ck0)
    = (FileSystem.init "root" Scenario.ck0, Raise FileNotFoundError).
Proof. repeat split; vm_compute; reflexivity. Qed.

(** C6, as amended: take a store whose root directory is named ["/"] and
    an absolute path with intermediate parts [segs] and last part [fname],
    admissible for the tree (no file among the intermediate parts, no
    part equal to the name of the directory before it). Then [open]
    returns an entry [e]; afterwards every prefix of the intermediate parts
    leads to a directory and the whole path leads to [e]. If the path
    already led to an entry, [e] is that entry and the store is unchanged;
    otherwise [e] is a new file of that name and path, with the id derived
    from them and size 0, whose blob is empty. *)
Theorem C6_open_creates_missing_or_returns_existing
    (w : World) (rch : list (string * Node)) (s r : string)
    (segs : list string) (fname : string) :
  root w = DirN "/" rch ->
  _validate_and_split_path (PStr s) = Ok (r :: segs ++ [fname])%list ->
  admissible (root w) segs = true ->
  exists w' e,
    FileSystem.open (PStr s) None w = (w', Ok e)
    /\ (forall k, exists nm ch, get_at (root w') (firstn k segs) = Some (DirN nm ch))
    /\ get_at (root w') (segs ++ [fname])%list = Some e
    /\ match get_at (root w) (segs ++ [fname])%list with
       | Some e0 => e = e0 /\ w' = w
       | None =>
           exists f, e = FileN f
                     /\ FileNode.name f = fname
                     /\ FileNode.file_path f = Path.of_str s
                     /\ id_invariant f
                     /\ FileNode.size f = 0
                     /\ blobs w' !! FileNode.file_id f = Some []
       end.
Proof.
  intros Hroot Hv Hadm.
  assert (Hrd : is_dir (root w) = true) by now rewrite Hroot.
  assert (Hrn : node_name (root w) = "/") by now rewrite Hroot.
  destruct (validate_str _ _ Hv) as [r' [Hparts _]].
  injection Hparts as _ Htail.
  assert (Hcomp : Forall component (segs ++ [fname])%list)
    by (rewrite Htail; apply of_str_components).
  assert (Hcs : Forall component ([] ++ segs)%list)
    by (apply Forall_app in Hcomp; tauto).
  destruct (open_loop segs [] w (root w) Hrd Hrn Hrd eq_refl Hadm Hcs)
    as (w1 & Hloop & Hrd1 & Hrn1 & Hc1 & Hb1 & Hk1 & Hd1 & Hend).
  cbn [app] in *.
  destruct (chain_get _ _ Hc1) as (nm & ch & Hg1).
  assert (Hprefix : forall w2, chain (root w2) segs ->
            forall k, exists nm ch, get_at (root w2) (firstn k segs) = Some (DirN nm ch)).
  { intros w2 Hc2 k. apply chain_get. apply (chain_prefix _ _ (skipn k segs)).
    now rewrite firstn_skipn. }
  unfold FileSystem.open. unfold bind at 1, lift. rewrite Hv. unfold bind at 1.
  change (slice_1_to_last (r :: (segs ++ [fname])%list))
    with (removelast (segs ++ [fname])%list).
  rewrite removelast_snoc.
  change ([], "") with (@nil string, t_path_of []).
  rewrite Hloop.
  cbn [fst]. unfold bind at 1, last_part.
  change (r :: (segs ++ [fname])%list) with ((r :: segs) ++ [fname])%list.
  rewrite index_last_snoc. unfold ret at 1.
  unfold bind at 1, children_at, bind at 1, node_at. rewrite Hg1. unfold ret at 1 2.
  rewrite get_at_app.
  destruct (Dict.get fname ch) as [e|] eqn:Ef.
  - (* an entry is there *)
    exists w1, e. unfold bind, ret.
    split; [reflexivity|]. split; [now apply Hprefix|].
    split; [rewrite get_at_app, Hg1; simpl; now rewrite Ef|].
    destruct (get_at (root w) segs) as [m|] eqn:Em.
    + subst w1. rewrite Em in Hg1. injection Hg1 as ->. simpl. rewrite Ef. auto.
    + destruct Hend as [l Hl]. rewrite Hl in Hg1. injection Hg1 as <- <-. discriminate.
  - (* nothing is there: the file is created *)
    destruct (create_file_fresh w1 s r segs fname nm ch Hv Hc1 Hg1 Ef)
      as (w2 & f & Hcf & Hgf & Hc2 & Hname & Hpath & Hid & Hsize & _ & _ & Hblobs).
    exists w2, (FileN f). unfold bind at 1 2. rewrite Hcf. unfold ret.
    split; [reflexivity|]. split; [now apply Hprefix|]. split; [assumption|].
    assert (Hnone : match get_at (root w) segs with
                    | Some m => get_at m [fname]
                    | None => None
                    end = None).
    { destruct (get_at (root w) segs) as [m|] eqn:Em; [|reflexivity].
      subst w1. rewrite Em in Hg1. injection Hg1 as ->. simpl. now rewrite Ef. }
    rewrite Hnone. exists f. repeat split; auto.
    rewrite Hblobs. apply lookup_insert_eq.
Qed.

(** C6 on the path [/new/deep/file.txt] and the empty store. *)
Lemma C6_witness :
  exists w' e,
    FileSystem.open (PStr "/new/deep/file.txt") None Scenario.w_empty = (w', Ok e)
    /\ (forall k, exists nm ch,
          get_at (root w') (firstn k ["new"; "deep"]) = Some (DirN nm ch))
    /\ get_at (root w') ["new"; "deep"; "file.txt"] = Some e
    /\ exists f, e = FileN f /\ FileNode.size f = 0.
Proof.
  destruct (C6_open_creates_missing_or_returns_existing
              Scenario.w_empty [] "/new/deep/file.txt" "/" ["new"; "deep"] "file.txt"
              eq_refl eq_refl eq_refl)
    as (w' & e & Hopen & Hdirs & Hget & Hnew).
  exists w', e. split; [exact Hopen|]. split; [exact Hdirs|]. split; [exact Hget|].
  change (get_at (root Scenario.w_empty) (["new"; "deep"] ++ ["file.txt"])%list)
    with (@None Node) in Hnew.
  destruct Hnew as (f & He & _ & _ & _ & Hsize & _).
  exists f. split; assumption.
Defined.
